(** * Expense-Management: the approval workflow of [back/app.py]

    A shallow embedding of the Flask service in [back/app.py]: the three
    global dictionaries [USERS], [COMPANIES] and [EXPENSES], the role gate
    [require_role], the currency converter [mock_currency_conversion], the
    approval engine ([check_can_approve], [process_next_approval_step]) and
    the request handlers built on them.

    Conventions of the embedding:
    - a Python [dict] keyed by identifiers is a [gmap string _];
    - the approval flow is a Python [list] that is shared by reference
      between [DEFAULT_APPROVAL_FLOW], the company record and every expense
      submitted for that company, so lists of steps live in an explicit
      [heap] and records hold locations;
    - handlers are state-passing functions returning a [Response] and the
      next [State]; an uncaught Python exception is the response [Raised];
    - [uuid.uuid4()] and [datetime.now().isoformat()] are inputs of the
      handlers that use them;
    - Python floats and [str.upper] are not modelled bit for bit: they are
      the operations of the class [PyPrims]. *)

From stdpp Require Import base strings list gmap fin_maps.
From Stdlib Require QArith Qround.

Local Open Scope string_scope.
Local Open Scope list_scope.
Local Open Scope nat_scope.

(** ** Primitive operations of the Python runtime *)

(** A decimal literal of the source: [(m, e)] denotes [m * 10^-e]. *)
Definition decimal : Type := Z * nat.
Definition dec (m : Z) (e : nat) : decimal := (m, e).

Class PyPrims (F : Type) := {
(** the float denoted by a decimal literal *)
  float_lit : decimal → F;
(** [x * y] on floats *)
  fmul : F → F → F;
(** [round(x, 2)] *)
  round2 : F → F;
(** [float(s)] on a string; [None] when it raises [ValueError] *)
  float_of_str : string → option F;
(** [float(n)] on an integer; [None] when it raises [OverflowError] *)
  float_of_int : Z → option F;
(** [s.upper()] *)
  upper : string → string
}.

(** ** Data model *)

(** Locations of list objects. *)
Definition loc : Type := positive.

Module Step.
Record t := mk { role : string; step_name : string }.
End Step.

Module User.
Record t := mk {
    id : string;
    company_id : string;
    name : string;
    role : string;
    manager_id : option string
  }.
End User.

Module Company.
Record t := mk {
    id : string;
    name : string;
    default_currency : string;
    approval_config : loc
  }.
End Company.

(** A JSON value of a request body, as [request.json] holds it: [JInt] is
    a Python [int], [JReal] the [float] read from a numeral with a fraction
    or an exponent, [JCompound] a list or a dictionary (what it contains is
    never looked at). *)
Inductive Json :=
  | JNull
  | JBool (b : bool)
  | JInt (n : Z)
  | JReal (d : decimal)
  | JStr (s : string)
  | JCompound.

(** What a call that may raise hands back. *)
Inductive Outcome (A : Type) :=
  | Returns (x : A)
  | Raises (exn : string).
Arguments Returns {A}.
Arguments Raises {A}.

Module Entry.
Record t := mk {
    timestamp : string;
    action : string;
    step : string;
    approver_id : string;
    comment : Json
  }.
End Entry.

Module Expense.
Record t {F : Type} := mk {
    id : string;
    user_id : string;
    company_id : string;
    amount : F;
    currency : string;
    converted_amount : F;
    company_currency : string;
    category : string;
    description : string;
    date : string;
    status : string;
    approval_flow : loc;
    current_approver_index : nat;
    history : list Entry.t
  }.
Arguments t : clear implicits.
Arguments mk {F}.

(** [expense['status'] = s] *)
Definition set_status {F} (s : string) (e : t F) : t F :=
    mk (id e) (user_id e) (company_id e) (amount e) (currency e)
       (converted_amount e) (company_currency e) (category e) (description e)
       (date e) s (approval_flow e) (current_approver_index e) (history e).

(** [expense['current_approver_index'] = i] *)
Definition set_current_approver_index {F} (i : nat) (e : t F) : t F :=
    mk (id e) (user_id e) (company_id e) (amount e) (currency e)
       (converted_amount e) (company_currency e) (category e) (description e)
       (date e) (status e) (approval_flow e) i (history e).

(** [expense['history'].append(h)] *)
Definition append_history {F} (h : Entry.t) (e : t F) : t F :=
    mk (id e) (user_id e) (company_id e) (amount e) (currency e)
       (converted_amount e) (company_currency e) (category e) (description e)
       (date e) (status e) (approval_flow e) (current_approver_index e)
       (history e ++ [h]).

(** [expense['company_id'] = c]; not an operation of the program, used to
      state that a result does not depend on the field. *)
Definition set_company_id {F} (c : string) (e : t F) : t F :=
    mk (id e) (user_id e) c (amount e) (currency e)
       (converted_amount e) (company_currency e) (category e) (description e)
       (date e) (status e) (approval_flow e) (current_approver_index e)
       (history e).
End Expense.

(** The globals of the module, and the list objects they refer to. *)
Record State {F : Type} := mkState {
  USERS : gmap string User.t;
  COMPANIES : gmap string Company.t;
  EXPENSES : gmap string (Expense.t F);
  heap : gmap loc (list Step.t);
  CURRENT_USER_ID : string
}.
Arguments State : clear implicits.
Arguments mkState {F}.

Definition set_EXPENSES {F} (m : gmap string (Expense.t F)) (st : State F) : State F :=
  mkState (USERS st) (COMPANIES st) m (heap st) (CURRENT_USER_ID st).

Definition set_USERS {F} (m : gmap string User.t) (st : State F) : State F :=
  mkState m (COMPANIES st) (EXPENSES st) (heap st) (CURRENT_USER_ID st).

Definition set_COMPANIES {F} (m : gmap string Company.t) (st : State F) : State F :=
  mkState (USERS st) m (EXPENSES st) (heap st) (CURRENT_USER_ID st).

Definition set_heap {F} (h : gmap loc (list Step.t)) (st : State F) : State F :=
  mkState (USERS st) (COMPANIES st) (EXPENSES st) h (CURRENT_USER_ID st).

Definition set_CURRENT_USER_ID {F} (u : string) (st : State F) : State F :=
  mkState (USERS st) (COMPANIES st) (EXPENSES st) (heap st) u.

(** The list object bound to [DEFAULT_APPROVAL_FLOW], and its contents when
    the module is loaded. *)
Definition DEFAULT_APPROVAL_FLOW : loc := 1%positive.

Definition default_steps : list Step.t :=
  [ Step.mk "Manager" "Manager Approval";
    Step.mk "Finance" "Finance Review";
    Step.mk "Admin" "Director Sign-off" ].

(** The state after the module-level assignments. *)
Definition module_state {F} : State F :=
  mkState ∅ ∅ ∅ {[ DEFAULT_APPROVAL_FLOW := default_steps ]} "admin-user-123".

(** What a handler hands back to Flask. *)
Inductive Response (A : Type) :=
  | Ok (code : nat) (payload : A)
  | Error (code : nat) (error : option string)
  | Raised (exn : string).
Arguments Ok {A}.
Arguments Error {A}.
Arguments Raised {A}.

(** Payload of approve and reject. *)
Record Decision := mkDecision { message : string; new_status : string }.

(** Payload of a successful submission. *)
Record Submitted {F : Type} := mkSubmitted {
  submitted_message : string;
  expense_id : string;
  pending_step : string;
  amount_in_company_currency : F * string
}.
Arguments Submitted : clear implicits.
Arguments mkSubmitted {F}.

(** The request body of [submit_expense]: a JSON object whose keys may be
    missing. The amount and the currency are any JSON values; the three
    values that are only stored are taken as strings. *)
Record SubmitBody := mkSubmitBody {
  body_amount : option Json;
  body_currency : option Json;
  body_category : option string;
  body_description : option string;
  body_date : option string
}.

(** The request body of [create_user]. *)
Record UserBody := mkUserBody {
  body_name : option string;
  body_role : option string;
  body_manager_id : option (option string)
}.

(** ** The rate table of [mock_currency_conversion] *)

Definition mock_rates : gmap string (gmap string decimal) :=
  list_to_map
    [ ("USD", list_to_map [("EUR", dec 93 2); ("INR", dec 8300 2); ("USD", dec 10 1)]);
      ("EUR", list_to_map [("USD", dec 108 2); ("INR", dec 8900 2); ("EUR", dec 10 1)]);
      ("INR", list_to_map [("USD", dec 12 3); ("EUR", dec 11 3); ("INR", dec 10 1)]) ].

(** [mock_rates[a][b]]; [None] stands for the [KeyError]. *)
Definition rate_lookup (a b : string) : option decimal :=
  mock_rates !! a ≫= λ row, row !! b.

(** The denial reasons of [check_can_approve]. *)
Definition finalized_reason : string := "This expense is already finalized.".
Definition not_manager_reason : string :=
  "You are not the assigned manager for this employee.".
Definition wrong_role_reason : string :=
  "You do not have the required role/authority for the current approval step.".

(** The denial of the gate of the approver endpoints. *)
Definition access_denied_reason : string :=
  "Access denied. Required roles: Manager, Admin, Finance".

(** The currencies of the rate table. *)
Definition table_currencies : list string := ["USD"; "EUR"; "INR"].

(** The roles admitted by the gate of the approve, reject and pending
    endpoints. *)
Definition approver_roles : list string := ["Manager"; "Admin"; "Finance"].

Section App.
Context {F : Type} `{!PyPrims F}.

Implicit Types (st : State F) (expense : Expense.t F).

(** *** Identity and roles *)

Definition get_current_user_id st : string := CURRENT_USER_ID st.

(** [USERS.get(user_id, {}).get('role')] *)
Definition get_user_role st (user_id : string) : option string :=
  User.role <$> USERS st !! user_id.

(** [user_role in allowed_roles]; [None] is in no list of role names. *)
Definition role_in (user_role : option string) (allowed_roles : list string) : bool :=
  match user_role with
  | Some r => bool_decide (r ∈ allowed_roles)
  | None => false
  end.

(** The decorator: [f] is the decorated handler. The empty string is the
    only identifier for which [not user_id] holds. *)
Definition require_role {A} (allowed_roles : list string)
    (f : State F → Response A * State F) st : Response A * State F :=
  let user_id := get_current_user_id st in
  if decide (user_id = "") then (Error 401 (Some "Authentication required."), st)
  else
    let user_role := get_user_role st user_id in
    if role_in user_role allowed_roles then f st
    else (Error 403 (Some ("Access denied. Required roles: " +:+
                           String.concat ", " allowed_roles)), st).

(** *** Currency converter *)

Definition mock_currency_conversion (from_currency to_currency : string)
    (amount : F) : F :=
  if decide (from_currency = to_currency) then amount
  else
    match rate_lookup (upper from_currency) (upper to_currency) with
    | Some rate => round2 (fmul amount (float_lit rate))
    | None => amount
    end.

(** *** Approval engine *)

(** The list object an expense's [approval_flow] refers to. Every location
    the program stores in a record is allocated; the empty list stands for
    a location that is not. *)
Definition flow_of st expense : list Step.t :=
  default [] (heap st !! Expense.approval_flow expense).

(** [expense['status'] in ["Approved", "Rejected"]] *)
Definition finalized expense : bool :=
  bool_decide (Expense.status expense ∈ ["Approved"; "Rejected"]).

(** The lookup [flow !! (current_index + 1)] succeeds exactly when
    [current_index + 1 < len(flow)], and then yields the step the source
    reads after the increment. The result pair is the [success] and
    [message] of the returned dictionary. *)
Definition process_next_approval_step st (expense_id : string)
    : (bool * string) * State F :=
  match EXPENSES st !! expense_id with
  | None => ((false, "Expense not found."), st)
  | Some expense =>
    let flow := flow_of st expense in
    let current_index := Expense.current_approver_index expense in
    match flow !! (current_index + 1) with
    | Some next_approver_step =>
      let expense' :=
        Expense.set_status ("Pending (" +:+ Step.step_name next_approver_step +:+ ")")
          (Expense.set_current_approver_index (current_index + 1) expense) in
      ((true, "Moved to next step: " +:+ Step.step_name next_approver_step),
       set_EXPENSES (<[expense_id := expense']> (EXPENSES st)) st)
    | None =>
      ((true, "Expense fully approved."),
       set_EXPENSES (<[expense_id := Expense.set_status "Approved" expense]> (EXPENSES st)) st)
    end
  end.

(** [USERS.get(employee_id, {}).get('manager_id') == user_id] *)
Definition is_manager_of st (user_id employee_id : string) : bool :=
  bool_decide (USERS st !! employee_id ≫= User.manager_id = Some user_id).

(** The lookup [flow !! current_index] succeeds exactly when
    [current_index < len(flow)]. *)
Definition check_can_approve st (user_id : string) expense : bool * option string :=
  if finalized expense then (false, Some finalized_reason)
  else
    let user_role := get_user_role st user_id in
    let company_id := User.company_id <$> USERS st !! user_id in
    if decide (user_role = Some "Admin") then (true, None)
    else
      let flow := flow_of st expense in
      let current_index := Expense.current_approver_index expense in
      match flow !! current_index with
      | Some current_step =>
        let required_role := Step.role current_step in
        if decide (user_role = Some required_role) then
          if decide (current_index = 0 ∧ required_role = "Manager") then
            let employee_id := Expense.user_id expense in
            if is_manager_of st user_id employee_id then (true, None)
            else (false, Some not_manager_reason)
          else (true, None)
        else (false, Some wrong_role_reason)
      | None => (false, Some wrong_role_reason)
      end.

(** *** Handlers *)

(** [approve_expense]: [json_comment] is the value of the key [comment] of
    the request body when present, [now] the timestamp. After
    [process_next_approval_step] the handler reads the status of the same
    expense object, which is still bound to [expense_id]. *)
Definition approve_expense_body (expense_id : string) (json_comment : option Json)
    (now : string) st : Response Decision * State F :=
  let user_id := get_current_user_id st in
  let comment := default (JStr "Approved.") json_comment in
  match EXPENSES st !! expense_id with
  | None => (Error 404 (Some "Expense not found."), st)
  | Some expense =>
    match check_can_approve st user_id expense with
    | (false, reason) => (Error 403 reason, st)
    | (true, _) =>
      match flow_of st expense !! Expense.current_approver_index expense with
      | None => (Raised "IndexError", st)
      | Some current_step =>
        let current_step_name := Step.step_name current_step in
        let entry := Entry.mk now "Approved" current_step_name user_id comment in
        let st1 :=
          set_EXPENSES (<[expense_id := Expense.append_history entry expense]> (EXPENSES st)) st in
        let '(result, st2) := process_next_approval_step st1 expense_id in
        match EXPENSES st2 !! expense_id with
        | None => (Raised "KeyError", st2)
        | Some expense2 =>
          (Ok 200 (mkDecision
                     ("Expense " +:+ expense_id +:+ " approved at '" +:+
                      current_step_name +:+ "'. " +:+ result.2)
                     (Expense.status expense2)), st2)
        end
      end
    end
  end.

Definition approve_expense st (expense_id : string) (json_comment : option Json)
    (now : string) : Response Decision * State F :=
  require_role approver_roles (approve_expense_body expense_id json_comment now) st.

Definition reject_expense_body (expense_id : string) (json_comment : option Json)
    (now : string) st : Response Decision * State F :=
  let user_id := get_current_user_id st in
  let comment := default (JStr "Rejected.") json_comment in
  match EXPENSES st !! expense_id with
  | None => (Error 404 (Some "Expense not found."), st)
  | Some expense =>
    match check_can_approve st user_id expense with
    | (false, reason) => (Error 403 reason, st)
    | (true, _) =>
      match flow_of st expense !! Expense.current_approver_index expense with
      | None => (Raised "IndexError", st)
      | Some current_step =>
        let current_step_name := Step.step_name current_step in
        let entry := Entry.mk now "Rejected" current_step_name user_id comment in
        let expense' :=
          Expense.append_history entry (Expense.set_status "Rejected" expense) in
        (Ok 200 (mkDecision
                   ("Expense " +:+ expense_id +:+ " rejected at '" +:+
                    current_step_name +:+ "'. Status finalized.")
                   (Expense.status expense')),
         set_EXPENSES (<[expense_id := expense']> (EXPENSES st)) st)
      end
    end
  end.

Definition reject_expense st (expense_id : string) (json_comment : option Json)
    (now : string) : Response Decision * State F :=
  require_role approver_roles (reject_expense_body expense_id json_comment now) st.

(** The decision the loop of [view_pending_expenses] takes for one expense. *)
Definition pending_for st (user_id : string) (user_role : option string)
    (company_id : string) expense : bool :=
  if bool_decide (Expense.company_id expense ≠ company_id) || finalized expense
  then false
  else
    let current_index := Expense.current_approver_index expense in
    match flow_of st expense !! current_index with
    | Some current_step =>
      let required_role := Step.role current_step in
      if decide (user_role = Some "Admin") then true
      else if decide (user_role = Some required_role) then
        if decide (required_role = "Manager") then
          is_manager_of st user_id (Expense.user_id expense)
        else true
      else false
    | None => false
    end.

(** [EXPENSES.values()] is enumerated in the order of [map_to_list], not in
    insertion order. *)
Definition view_pending_expenses_body st : Response (list (Expense.t F)) * State F :=
  let user_id := get_current_user_id st in
  let user_role := get_user_role st user_id in
  match USERS st !! user_id with
  | None => (Raised "KeyError", st)
  | Some user =>
    let company_id := User.company_id user in
    let pending_list :=
      filter (λ expense, pending_for st user_id user_role company_id expense = true)
             (map_to_list (EXPENSES st)).*2 in
    (Ok 200 pending_list, st)
  end.

Definition view_pending_expenses st : Response (list (Expense.t F)) * State F :=
  require_role approver_roles view_pending_expenses_body st.

(** [float(data['amount'])]: a string is parsed, or raises [ValueError];
    an integer is converted, or raises [OverflowError]; [True] and [False]
    are 1.0 and 0.0; [None], a list and a dictionary raise [TypeError]. *)
Definition float (v : Json) : Outcome F :=
  match v with
  | JStr s =>
    match float_of_str s with Some x => Returns x | None => Raises "ValueError" end
  | JInt n =>
    match float_of_int n with Some x => Returns x | None => Raises "OverflowError" end
  | JReal d => Returns (float_lit d)
  | JBool b => Returns (float_lit (if b then dec 10 1 else dec 0 1))
  | JNull | JCompound => Raises "TypeError"
  end.

(** [submit_expense]: [new_id] is the identifier drawn by [uuid.uuid4()].
    Of what [float] and the conversion raise inside the [try], only
    [ValueError] is caught. A currency that is not a string is equal to no
    company currency and has no [upper], so the conversion raises
    [AttributeError]. The expense is stored before the response is built,
    so the [IndexError] of an empty flow leaves it in [EXPENSES]. *)
Definition submit_expense_body (data : SubmitBody) (new_id : string) st
    : Response (Submitted F) * State F :=
  let user_id := get_current_user_id st in
  match body_amount data, body_currency data, body_category data,
        body_description data, body_date data with
  | Some amount_json, Some currency_json, Some category, Some description, Some date =>
    match USERS st !! user_id with
    | None => (Raised "KeyError", st)
    | Some user =>
      let company_id := User.company_id user in
      match COMPANIES st !! company_id with
      | None => (Raised "KeyError", st)
      | Some company =>
        match float amount_json with
        | Raises exn =>
          if decide (exn = "ValueError")
          then (Error 400 (Some "Invalid amount format."), st)
          else (Raised exn, st)
        | Returns amount =>
          match currency_json with
          | JStr currency =>
            let converted_amount :=
              mock_currency_conversion currency (Company.default_currency company) amount in
            let expense :=
              Expense.mk new_id user_id company_id amount currency converted_amount
                (Company.default_currency company) category description date
                "Pending (Manager Approval)" (Company.approval_config company) 0 [] in
            let st' := set_EXPENSES (<[new_id := expense]> (EXPENSES st)) st in
            match flow_of st' expense !! 0 with
            | None => (Raised "IndexError", st')
            | Some first_step =>
              (Ok 201 (mkSubmitted "Expense submitted successfully." new_id
                         (Step.step_name first_step)
                         (converted_amount, Company.default_currency company)), st')
            end
          | _ => (Raised "AttributeError", st)
          end
        end
      end
    end
  | _, _, _, _, _ =>
    (Error 400 (Some "Missing required fields: amount, currency, category, description, date"), st)
  end.

Definition submit_expense st (data : SubmitBody) (new_id : string)
    : Response (Submitted F) * State F :=
  require_role ["Employee"] (submit_expense_body data new_id) st.

(** [data['manager_id'] or None] *)
Definition or_None (v : option string) : option string :=
  match v with
  | Some "" => None
  | other => other
  end.

(** [create_user]: the payload is the message and the new identifier. *)
Definition create_user_body (data : UserBody) (new_user_id : string) st
    : Response (string * string) * State F :=
  match body_name data, body_role data, body_manager_id data with
  | Some name, Some role, Some manager_json =>
    if bool_decide (role ∈ ["Employee"; "Manager"; "Finance"]) then
      let admin_id := get_current_user_id st in
      match USERS st !! admin_id with
      | None => (Raised "KeyError", st)
      | Some admin =>
        let user :=
          User.mk new_user_id (User.company_id admin) name role (or_None manager_json) in
        (Ok 201 ("User " +:+ name +:+ " created.", new_user_id),
         set_USERS (<[new_user_id := user]> (USERS st)) st)
      end
    else (Error 400 (Some "Invalid role specified."), st)
  | _, _, _ => (Error 400 (Some "Missing required fields: name, role, manager_id"), st)
  end.

Definition create_user st (data : UserBody) (new_user_id : string)
    : Response (string * string) * State F :=
  require_role ["Admin"] (create_user_body data new_user_id) st.

(** *** Definitions used to state the properties *)

(** The expense [process_next_approval_step] leaves behind. *)
Definition advance (flow : list Step.t) e : Expense.t F :=
  match flow !! (Expense.current_approver_index e + 1) with
  | Some next =>
    Expense.set_status ("Pending (" +:+ Step.step_name next +:+ ")")
      (Expense.set_current_approver_index (Expense.current_approver_index e + 1) e)
  | None => Expense.set_status "Approved" e
  end.

(** The history entry written by a decision on [e] at step [current_step]. *)
Definition decision_entry st (action : string) (current_step : Step.t)
    (default_comment : string) (json_comment : option Json) (now : string) : Entry.t :=
  Entry.mk now action (Step.step_name current_step) (CURRENT_USER_ID st)
           (default (JStr default_comment) json_comment).

(** [USERS[user_id]['company_id'] = c]; not an operation of the program,
    used to state that a result does not depend on the field. *)
Definition move_user (c : string) (u : User.t) : User.t :=
  User.mk (User.id u) c (User.name u) (User.role u) (User.manager_id u).

Definition with_user_company st (user_id c : string) : State F :=
  set_USERS (alter (move_user c) user_id (USERS st)) st.

End App.

(** ** In-place and rebinding updates of a company's flow template

    The program itself never updates [approval_config]; these are the
    Python statements by which any other code holding [COMPANIES] can. *)

Inductive TemplateUpdate :=
  (** [COMPANIES[c]['approval_config'].append(s)] *)
  | ListAppend (s : Step.t)
  (** [COMPANIES[c]['approval_config'][i] = s] *)
  | ListSetItem (i : nat) (s : Step.t)
  (** [COMPANIES[c]['approval_config'] = steps], a new list object *)
  | Rebind (steps : list Step.t).

Definition fresh_loc (h : gmap loc (list Step.t)) : loc := fresh (dom h).

(** [None] stands for the [KeyError] or [IndexError] of the statement. *)
Definition update_template {F} (st : State F) (company_id : string)
    (m : TemplateUpdate) : option (State F) :=
  company ← COMPANIES st !! company_id;
  let l := Company.approval_config company in
  match m with
  | ListAppend s =>
    flow ← heap st !! l;
    Some (set_heap (<[l := flow ++ [s]]> (heap st)) st)
  | ListSetItem i s =>
    flow ← heap st !! l;
    if decide (i < length flow)
    then Some (set_heap (<[l := <[i := s]> flow]> (heap st)) st)
    else None
  | Rebind steps =>
    let l' := fresh_loc (heap st) in
    let company' :=
      Company.mk (Company.id company) (Company.name company)
                 (Company.default_currency company) l' in
    Some (set_COMPANIES (<[company_id := company']> (COMPANIES st))
            (set_heap (<[l' := steps]> (heap st)) st))
  end.

(** ** An instance of the primitives: exact decimal arithmetic

    Amounts are rationals in lowest terms, not binary doubles: [fmul] is
    exact and [round2] rounds the exact decimal half to even, so the
    instance agrees with Python only where the double nearest to the
    result rounds the same way; [float_of_str] reads signed plain numerals
    such as [12], [-12.5] or [.5] and none of the other forms [float]
    accepts (exponents, blanks, [inf], [nan]); [upper] maps the letters
    a-z. It is the instance at which the development is run on concrete
    requests; no theorem of the development depends on it. *)

Module ExactDecimal.

Definition q_lit (d : decimal) : QArith_base.Q :=
  Qreduction.Qred (QArith_base.Qmake d.1 (Z.to_pos (10 ^ Z.of_nat d.2))).

Definition q_mul (x y : QArith_base.Q) : QArith_base.Q :=
  Qreduction.Qred (QArith_base.Qmult x y).

Definition q_round2 (x : QArith_base.Q) : QArith_base.Q :=
  let y := QArith_base.Qmult x (QArith_base.Qmake 100 1) in
  let n := Qround.Qfloor y in
  let r := QArith_base.Qminus y (QArith_base.Qmake n 1) in
  let m :=
    match QArith_base.Qcompare r (QArith_base.Qmake 1 2) with
    | Lt => n
    | Gt => (n + 1)%Z
    | Eq => if Z.even n then n else (n + 1)%Z
    end in
  Qreduction.Qred (QArith_base.Qmake m 100).

Definition digit_of (c : Ascii.ascii) : option Z :=
  let n := Z.of_nat (Ascii.nat_of_ascii c) in
  if bool_decide (48 ≤ n ≤ 57)%Z then Some (n - 48)%Z else None.

Fixpoint numeral (s : string) (acc : Z) (scale : option nat) (seen : bool)
    : option decimal :=
  match s with
  | EmptyString => if seen then Some (acc, default 0 scale) else None
  | String c r =>
    match digit_of c with
    | Some d => numeral r (acc * 10 + d)%Z (S <$> scale) true
    | None =>
      if bool_decide (Ascii.nat_of_ascii c = 46 ∧ scale = None)
      then numeral r acc (Some 0) seen
      else None
    end
  end.

(** A numeral with an optional sign. *)
Definition q_of_str (s : string) : option QArith_base.Q :=
  match s with
  | String c r =>
    if bool_decide (Ascii.nat_of_ascii c = 45)
    then QArith_base.Qopp <$> (q_lit <$> numeral r 0 None false)
    else if bool_decide (Ascii.nat_of_ascii c = 43)
    then q_lit <$> numeral r 0 None false
    else q_lit <$> numeral s 0 None false
  | EmptyString => None
  end.

(** [float(n)] overflows when [n] rounds to 2^1024 or beyond. *)
Definition q_of_int (n : Z) : option QArith_base.Q :=
  if bool_decide (Z.abs n < 2 ^ 1024 - 2 ^ 970)%Z
  then Some (QArith_base.Qmake n 1)
  else None.

Definition upper_char (c : Ascii.ascii) : Ascii.ascii :=
  let n := Ascii.nat_of_ascii c in
  if bool_decide (97 ≤ n ≤ 122) then Ascii.ascii_of_nat (n - 32) else c.

Fixpoint ascii_upper (s : string) : string :=
  match s with
  | EmptyString => EmptyString
  | String c r => String (upper_char c) (ascii_upper r)
  end.

#[global] Instance prims : PyPrims QArith_base.Q := {
  float_lit := q_lit;
  fmul := q_mul;
  round2 := q_round2;
  float_of_str := q_of_str;
  float_of_int := q_of_int;
  upper := ascii_upper
}.

End ExactDecimal.

(** ** The seeded service, run on exact decimals *)

Definition amount_t : Type := QArith_base.Q.

(** The request is made by [user_id]: the source keeps the caller in the
    global [CURRENT_USER_ID]. *)
Definition acting_as {F} (user_id : string) (st : State F) : State F :=
  set_CURRENT_USER_ID user_id st.

(** The stores as the bootstrap code fills them (one company holding
    [DEFAULT_APPROVAL_FLOW] itself, the Admin, a Manager reporting to the
    Admin, an Employee reporting to the Manager), with the Employee as the
    caller. The bootstrap function itself is not modelled: as committed it
    declares [global CURRENT_USER_ID] a second time after using the name,
    which Python refuses. *)
Definition seeded : State amount_t :=
  mkState
    (<["employee-1" :=
         User.mk "employee-1" "company-1" "Tom Employee" "Employee" (Some "manager-1")]>
       (<["manager-1" :=
            User.mk "manager-1" "company-1" "Jane Manager" "Manager" (Some "admin-user-123")]>
          (<["admin-user-123" :=
               User.mk "admin-user-123" "company-1" "Admin User" "Admin" None]> ∅)))
    (<["company-1" := Company.mk "company-1" "Acme Global Inc." "USD" DEFAULT_APPROVAL_FLOW]> ∅)
    ∅
    {[ DEFAULT_APPROVAL_FLOW := default_steps ]}
    "employee-1".

(** The Admin adds a Finance user and a second Manager. *)
Definition staffed : State amount_t :=
  let st1 :=
    (create_user (acting_as "admin-user-123" seeded)
       (mkUserBody (Some "Fay Finance") (Some "Finance") (Some None)) "finance-1").2 in
  (create_user st1
     (mkUserBody (Some "Max Manager") (Some "Manager") (Some (Some "admin-user-123")))
     "manager-2").2.

Definition trip : SubmitBody :=
  mkSubmitBody (Some (JStr "100")) (Some (JStr "EUR")) (Some "Travel") (Some "Trip")
               (Some "2024-01-01").

Definition submitted : State amount_t :=
  (submit_expense (acting_as "employee-1" staffed) trip "expense-1").2.

Definition trip_expense : Expense.t amount_t :=
  Expense.mk "expense-1" "employee-1" "company-1" (QArith_base.Qmake 100 1) "EUR"
    (QArith_base.Qmake 108 1) "USD" "Travel" "Trip" "2024-01-01"
    "Pending (Manager Approval)" DEFAULT_APPROVAL_FLOW 0 [].

Definition after_manager : State amount_t :=
  (approve_expense (acting_as "manager-1" submitted) "expense-1" None "2024-01-02T09:00:00").2.

Definition after_finance : State amount_t :=
  (approve_expense (acting_as "finance-1" after_manager) "expense-1"
     (Some (JStr "Receipts checked.")) "2024-01-03T09:00:00").2.

Definition after_admin : State amount_t :=
  (approve_expense (acting_as "admin-user-123" after_finance) "expense-1" None
     "2024-01-04T09:00:00").2.

(** The status of an expense of the store. *)
Definition status_of {F} (st : State F) (id : string) : option string :=
  Expense.status <$> EXPENSES st !! id.

(** The index of an expense of the store. *)
Definition index_of {F} (st : State F) (id : string) : option nat :=
  Expense.current_approver_index <$> EXPENSES st !! id.

(** The template of the company is updated in place after the submission:
    [COMPANIES["company-1"]['approval_config'][0] = {"role": "Finance", ...}]. *)
Definition retargeted : option (State amount_t) :=
  update_template submitted "company-1"
    (ListSetItem 0 (Step.mk "Finance" "Finance Desk")).

(** A company whose template asks for Finance first and a Manager second:
    the template is bound to the new list, the Employee submits, and
    Finance approves, which leaves the expense at index 1. *)
Definition finance_first : option (State amount_t) :=
  st ← update_template staffed "company-1"
         (Rebind [ Step.mk "Finance" "Finance Review";
                   Step.mk "Manager" "Manager Approval" ]);
  let st1 := (submit_expense (acting_as "employee-1" st) trip "expense-1").2 in
  Some (approve_expense (acting_as "finance-1" st1) "expense-1" None
          "2024-01-02T09:00:00").2.

(** An Admin of another company joins the user table. *)
Definition with_outsider : State amount_t :=
  set_USERS
    (<["outsider-1" := User.mk "outsider-1" "company-2" "Olga Outsider" "Admin" None]>
       (USERS after_manager))
    after_manager.

(** ** The remaining endpoints and the routing table *)

(** Payload of [get_auth_status]: the four keys of the 200 answer, or the
    two keys of the 401 answer, whose [role] is "Unauthenticated". *)
Inductive AuthStatus :=
  | Authenticated (user_id name role company_currency : string)
  | Unauthenticated (user_id : string).

(** A request to one of the seven routes, with the values the handler
    draws from the request, the clock and [uuid.uuid4()]. *)
Inductive Request :=
  | GetAuthStatus
  | CreateUser (data : UserBody) (new_user_id : string)
  | SubmitExpense (data : SubmitBody) (new_id : string)
  | ViewMyExpenses
  | ViewPendingExpenses
  | ApproveExpense (expense_id : string) (json_comment : option Json) (now : string)
  | RejectExpense (expense_id : string) (json_comment : option Json) (now : string).

(** The status line Flask sends: the code of the answer, and 500 for an
    uncaught exception. *)
Definition http_status {A} (r : Response A) : nat :=
  match r with
  | Ok code _ => code
  | Error code _ => code
  | Raised _ => 500
  end.

Section Service.
Context {F : Type} `{!PyPrims F}.

Implicit Types (st : State F) (expense : Expense.t F).

(** [get_auth_status]: the route has no role gate. A user whose company is
    not in [COMPANIES] makes [company['default_currency']] subscript
    [None]. *)
Definition get_auth_status st : Response AuthStatus * State F :=
  let user_id := get_current_user_id st in
  match USERS st !! user_id with
  | None => (Ok 401 (Unauthenticated user_id), st)
  | Some user_data =>
    match COMPANIES st !! User.company_id user_data with
    | None => (Raised "TypeError", st)
    | Some company =>
      (Ok 200 (Authenticated user_id (User.name user_data) (User.role user_data)
                 (Company.default_currency company)), st)
    end
  end.

(** [view_my_expenses]; [EXPENSES.values()] is enumerated in the order of
    [map_to_list]. *)
Definition view_my_expenses_body st : Response (list (Expense.t F)) * State F :=
  let user_id := get_current_user_id st in
  let user_expenses :=
    filter (λ expense, Expense.user_id expense = user_id)
           (map_to_list (EXPENSES st)).*2 in
  (Ok 200 user_expenses, st).

Definition view_my_expenses st : Response (list (Expense.t F)) * State F :=
  require_role ["Employee"; "Manager"; "Admin"] view_my_expenses_body st.

(** The [app.route] table: the status sent for a request, and the state
    the handler leaves. *)
Definition dispatch st (req : Request) : nat * State F :=
  match req with
  | GetAuthStatus =>
    let r := get_auth_status st in (http_status r.1, r.2)
  | CreateUser data new_user_id =>
    let r := create_user st data new_user_id in (http_status r.1, r.2)
  | SubmitExpense data new_id =>
    let r := submit_expense st data new_id in (http_status r.1, r.2)
  | ViewMyExpenses =>
    let r := view_my_expenses st in (http_status r.1, r.2)
  | ViewPendingExpenses =>
    let r := view_pending_expenses st in (http_status r.1, r.2)
  | ApproveExpense expense_id json_comment now =>
    let r := approve_expense st expense_id json_comment now in (http_status r.1, r.2)
  | RejectExpense expense_id json_comment now =>
    let r := reject_expense st expense_id json_comment now in (http_status r.1, r.2)
  end.

(** The requests of a session served in order, the caller staying the one
    in [CURRENT_USER_ID]: the statuses sent and the final state. *)
Fixpoint run st (reqs : list (Request)) : list nat * State F :=
  match reqs with
  | [] => ([], st)
  | req :: rest =>
    let '(code, st1) := dispatch st req in
    let '(codes, st2) := run st1 rest in
    (code :: codes, st2)
  end.

(** The same, each request made by the caller it is paired with. *)
Fixpoint serve st (reqs : list (string * Request)) : list nat * State F :=
  match reqs with
  | [] => ([], st)
  | (caller, req) :: rest =>
    let '(code, st1) := dispatch (acting_as caller st) req in
    let '(codes, st2) := serve st1 rest in
    (code :: codes, st2)
  end.

(** Whether a request is a decision on the expense [id] that is answered
    200. *)
Definition decides (id : string) (req : Request) (code : nat) : bool :=
  match req with
  | ApproveExpense expense_id _ _ | RejectExpense expense_id _ _ =>
    bool_decide (expense_id = id ∧ code = 200)
  | _ => false
  end.

(** The number of decisions on [id] answered 200 while [reqs] is served. *)
Fixpoint decisions_made st (id : string) (reqs : list (string * Request)) : nat :=
  match reqs with
  | [] => 0
  | (caller, req) :: rest =>
    let '(code, st1) := dispatch (acting_as caller st) req in
    (if decides id req code then 1 else 0) + decisions_made st1 id rest
  end.

(** Whether the route of a request is gated for roles an Employee does
    not have: the admin route, the pending list, approve and reject. *)
Definition closed_to_employees (req : Request) : bool :=
  match req with
  | CreateUser _ _ | ViewPendingExpenses
  | ApproveExpense _ _ _ | RejectExpense _ _ _ => true
  | _ => false
  end.

(** Whether a request stores an expense under [id]. *)
Definition submits (id : string) (req : Request) : Prop :=
  match req with
  | SubmitExpense _ new_id => new_id = id
  | _ => False
  end.

(** The steps an expense still has to pass. *)
Definition steps_left st expense : nat :=
  if finalized expense then 0
  else length (flow_of st expense) - Expense.current_approver_index expense.

(** How [float] refuses an amount, other than with [ValueError], and when
    the conversion has no string to work on. *)
Definition conversion_raises (data : SubmitBody) : Prop :=
  (∃ amount_json exn,
     body_amount data = Some amount_json ∧ float amount_json = Raises exn ∧
     exn ≠ "ValueError") ∨
  (∃ amount_json amount currency_json,
     body_amount data = Some amount_json ∧ float amount_json = Returns amount ∧
     body_currency data = Some currency_json ∧ ∀ currency, currency_json ≠ JStr currency).

(** *** The records the two creating handlers store *)

(** The user [create_user] stores for a well-formed body. *)
Definition created_user (admin : User.t) (new_user_id name role : string)
    (manager_json : option string) : User.t :=
  User.mk new_user_id (User.company_id admin) name role (or_None manager_json).

(** The expense [submit_expense] stores for a well-formed body. *)
Definition submitted_expense st (user : User.t) (company : Company.t)
    (new_id : string) (amount : F) (currency category description date : string)
    : Expense.t F :=
  Expense.mk new_id (CURRENT_USER_ID st) (User.company_id user) amount currency
    (mock_currency_conversion currency (Company.default_currency company) amount)
    (Company.default_currency company) category description date
    "Pending (Manager Approval)" (Company.approval_config company) 0 [].

(** *** Invariants of the stores *)

(** Every user's company is in [COMPANIES]. *)
Definition users_have_company st : Prop :=
  ∀ k u, USERS st !! k = Some u → is_Some (COMPANIES st !! User.company_id u).

(** Every company's template is a list object with a first step. *)
Definition templates_have_first_step st : Prop :=
  ∀ k c, COMPANIES st !! k = Some c →
    ∃ flow first_step,
      heap st !! Company.approval_config c = Some flow ∧ flow !! 0 = Some first_step.

(** The index of every pending expense points at a step of its flow. *)
Definition pending_in_flow st : Prop :=
  ∀ k e, EXPENSES st !! k = Some e → finalized e = false →
    Expense.current_approver_index e < length (flow_of st e).

Definition stores_consistent st : Prop :=
  users_have_company st ∧ templates_have_first_step st ∧ pending_in_flow st.

(** In every list object of the store a step that asks for a Manager is
    the first one, as in [DEFAULT_APPROVAL_FLOW], the only flow the program
    ever builds. *)
Definition manager_step_first st : Prop :=
  ∀ l flow i current_step,
    heap st !! l = Some flow → flow !! i = Some current_step →
    Step.role current_step = "Manager" → i = 0.

(** The shape of an expense that was submitted and then only approved or
    rejected: one history entry per passed step, plus one once finalized;
    while pending, the status names the step at the index, except at index
    0, where it is the text written at submission. *)
Definition expense_shape st expense : Prop :=
  length (Expense.history expense) =
    Expense.current_approver_index expense + (if finalized expense then 1 else 0) ∧
  (finalized expense = false →
     (Expense.current_approver_index expense = 0 ∧
      Expense.status expense = "Pending (Manager Approval)") ∨
     (0 < Expense.current_approver_index expense ∧
      ∃ current_step,
        flow_of st expense !! Expense.current_approver_index expense = Some current_step ∧
        Expense.status expense = "Pending (" +:+ Step.step_name current_step +:+ ")")).

End Service.

(** ** Sessions served on the seeded service *)

(** The seeded service after [DEFAULT_APPROVAL_FLOW.clear()]: the template
    of the company is the empty list. *)
Definition emptied : State amount_t :=
  set_heap (<[DEFAULT_APPROVAL_FLOW := []]> (heap staffed)) staffed.

(** A session in which the scenario's expense is submitted, refused to the
    second Manager, approved three times, and then acted on again. *)
Definition decisions_session : list (string * Request) :=
  [ ("manager-2", ApproveExpense "expense-1" None "2024-01-02T08:00:00");
    ("manager-1", ApproveExpense "expense-1" None "2024-01-02T09:00:00");
    ("employee-1", ViewMyExpenses);
    ("finance-1", ApproveExpense "expense-1" (Some (JStr "Receipts checked.")) "2024-01-03T09:00:00");
    ("admin-user-123", ApproveExpense "expense-1" None "2024-01-04T09:00:00");
    ("admin-user-123", RejectExpense "expense-1" None "2024-01-05T09:00:00");
    ("finance-1", GetAuthStatus) ].

Definition full_session : list (string * Request) :=
  ("employee-1", SubmitExpense trip "expense-1") :: decisions_session.


(** The Admin adds a Finance user and a second Manager, and the Employee
    submits the trip. *)
Definition staffing_session : list (string * Request) :=
  [ ("admin-user-123",
     CreateUser (mkUserBody (Some "Fay Finance") (Some "Finance") (Some None)) "finance-1");
    ("admin-user-123",
     CreateUser (mkUserBody (Some "Max Manager") (Some "Manager")
                   (Some (Some "admin-user-123"))) "manager-2");
    ("employee-1", SubmitExpense trip "expense-1") ].

(** What the caller the bootstrap leaves in place can ask for. *)
Definition employee_session : list (Request) :=
  [ SubmitExpense trip "expense-1";
    ApproveExpense "expense-1" None "2024-01-02T09:00:00";
    ViewPendingExpenses;
    CreateUser (mkUserBody (Some "Eve") (Some "Manager") (Some None)) "eve-1";
    RejectExpense "expense-1" None "2024-01-02T10:00:00";
    ViewMyExpenses ].

(** The comments and timestamps of three approvals. *)
Definition three_approvals : list (option Json * string) :=
  [ (None, "2024-01-02T09:00:00");
    (Some (JStr "Receipts checked."), "2024-01-03T09:00:00");
    (None, "2024-01-04T09:00:00") ].

(** ** Properties of the gate and of the approval engine *)

Section Properties.
Context {F : Type} `{!PyPrims F}.

Implicit Types (st : State F) (e expense : Expense.t F).


Lemma role_in_approver_roles (r : option string) :
  role_in r approver_roles = true ↔
  r = Some "Manager" ∨ r = Some "Admin" ∨ r = Some "Finance".
Proof.
  unfold role_in, approver_roles. destruct r as [r|].
  - rewrite bool_decide_eq_true, !elem_of_cons, elem_of_nil.
    split; [intros [->|[->|[->|[]]]]; auto | intros [H|[H|H]]; inversion H; auto].
  - split; [discriminate | intros [H|[H|H]]; discriminate].
Qed.

(** The gate lets exactly the listed roles through, and changes nothing. *)
Lemma require_role_pass {A} roles (f : State F → Response A * State F) st :
  CURRENT_USER_ID st ≠ "" →
  role_in (get_user_role st (CURRENT_USER_ID st)) roles = true →
  require_role roles f st = f st.
Proof.
  intros Hid Hrole. unfold require_role, get_current_user_id.
  destruct (decide (CURRENT_USER_ID st = "")); [done|]. by rewrite Hrole.
Qed.

Lemma require_role_cases {A} roles (f : State F → Response A * State F) st :
  (require_role roles f st = f st ∧ CURRENT_USER_ID st ≠ "" ∧
   role_in (get_user_role st (CURRENT_USER_ID st)) roles = true) ∨
  (require_role roles f st = (Error 401 (Some "Authentication required."), st) ∧
   CURRENT_USER_ID st = "") ∨
  (require_role roles f st =
     (Error 403 (Some ("Access denied. Required roles: " +:+ String.concat ", " roles)), st) ∧
   CURRENT_USER_ID st ≠ "" ∧
   role_in (get_user_role st (CURRENT_USER_ID st)) roles = false).
Proof.
  unfold require_role, get_current_user_id.
  destruct (decide (CURRENT_USER_ID st = "")); [auto|].
  destruct (role_in _ roles) eqn:Hr; auto.
Qed.


Lemma process_next_found st id e :
  EXPENSES st !! id = Some e →
  (process_next_approval_step st id).1.1 = true ∧
  (process_next_approval_step st id).2 =
    set_EXPENSES (<[id := advance (flow_of st e) e]> (EXPENSES st)) st.
Proof.
  intros He. unfold process_next_approval_step, advance. rewrite He.
  destruct (flow_of st e !! _); done.
Qed.

Lemma advance_index flow e :
  Expense.current_approver_index (advance flow e) =
  if decide (Expense.current_approver_index e + 1 < length flow)
  then Expense.current_approver_index e + 1
  else Expense.current_approver_index e.
Proof.
  unfold advance. destruct (flow !! _) as [s|] eqn:Hs.
  - apply lookup_lt_Some in Hs. by rewrite decide_True.
  - apply lookup_ge_None in Hs. rewrite decide_False by lia. done.
Qed.

Lemma advance_history flow e : Expense.history (advance flow e) = Expense.history e.
Proof. unfold advance. by destruct (flow !! _). Qed.

Lemma advance_approval_flow flow e :
  Expense.approval_flow (advance flow e) = Expense.approval_flow e.
Proof. unfold advance. by destruct (flow !! _). Qed.

Lemma advance_status_next flow e next :
  flow !! (Expense.current_approver_index e + 1) = Some next →
  Expense.status (advance flow e) = "Pending (" +:+ Step.step_name next +:+ ")".
Proof. unfold advance. by intros ->. Qed.

Lemma advance_status_last flow e :
  length flow ≤ Expense.current_approver_index e + 1 →
  Expense.status (advance flow e) = "Approved".
Proof. intros Hl. unfold advance. by rewrite (lookup_ge_None_2 flow _ Hl). Qed.

(** C6: once the expense is found, [process_next_approval_step] succeeds;
    when the flow has a step at the next index the index is incremented and
    the status is "Pending (<label of that step>)", and otherwise the status
    is "Approved" with the index left where it was. The history and the
    flow reference are untouched either way. *)
Theorem process_next_approval_step_contract st id e :
  EXPENSES st !! id = Some e →
  let i := Expense.current_approver_index e in
  let flow := flow_of st e in
  let r := process_next_approval_step st id in
  r.1.1 = true ∧
  ∃ e', EXPENSES r.2 !! id = Some e' ∧
    (i + 1 < length flow →
       Expense.current_approver_index e' = i + 1 ∧
       ∃ next, flow !! (i + 1) = Some next ∧
         Expense.status e' = "Pending (" +:+ Step.step_name next +:+ ")") ∧
    (length flow ≤ i + 1 →
       Expense.current_approver_index e' = i ∧ Expense.status e' = "Approved") ∧
    Expense.history e' = Expense.history e ∧
    Expense.approval_flow e' = Expense.approval_flow e ∧
    heap r.2 = heap st.
Proof.
  intros He i flow r. destruct (process_next_found st id e He) as [Hok Hst].
  split; [exact Hok|]. subst r. rewrite Hst.
  exists (advance flow e). simpl. rewrite lookup_insert_eq.
  split; [done|]. split; [|split; [|split; [|split]]].
  - intros Hlt. split.
    + rewrite advance_index. fold flow i. by rewrite decide_True.
    + destruct (lookup_lt_is_Some_2 flow (i + 1) Hlt) as [next Hn].
      exists next. split; [done|]. by apply advance_status_next.
  - intros Hge. split.
    + rewrite advance_index. fold flow i. rewrite decide_False by lia. done.
    + by apply advance_status_last.
  - apply advance_history.
  - apply advance_approval_flow.
  - done.
Qed.

(** *** What a successful approve or reject call does *)

Lemma approve_body_authorized st id jc now e current_step :
  EXPENSES st !! id = Some e →
  (check_can_approve st (CURRENT_USER_ID st) e).1 = true →
  flow_of st e !! Expense.current_approver_index e = Some current_step →
  let e' :=
    advance (flow_of st e)
      (Expense.append_history (decision_entry st "Approved" current_step "Approved." jc now) e) in
  ∃ msg,
    approve_expense_body id jc now st =
      (Ok 200 (mkDecision msg (Expense.status e')),
       set_EXPENSES (<[id := e']> (EXPENSES st)) st).
Proof.
  intros He Hc Hs e'. unfold approve_expense_body, get_current_user_id.
  rewrite He. destruct (check_can_approve _ _ _) as [[] reason]; [|done].
  rewrite Hs.
  set (entry := Entry.mk _ _ _ _ _).
  set (st1 := set_EXPENSES _ st).
  assert (H1 : EXPENSES st1 !! id = Some (Expense.append_history entry e))
    by apply lookup_insert_eq.
  destruct (process_next_found st1 id _ H1) as [_ Hst2].
  destruct (process_next_approval_step st1 id) as [result st2]. simpl in Hst2.
  subst st2. simpl. rewrite lookup_insert_eq, insert_insert_eq.
  eexists. reflexivity.
Qed.

Lemma approve_body_Ok_inv st id jc now c d st' :
  approve_expense_body id jc now st = (Ok c d, st') →
  ∃ e current_step,
    EXPENSES st !! id = Some e ∧
    (check_can_approve st (CURRENT_USER_ID st) e).1 = true ∧
    flow_of st e !! Expense.current_approver_index e = Some current_step.
Proof.
  unfold approve_expense_body, get_current_user_id.
  destruct (EXPENSES st !! id) as [e|]; [|done].
  destruct (check_can_approve _ _ _) as [[] reason] eqn:Hc; [|done].
  destruct (flow_of st e !! _) as [s|] eqn:Hs; [|done].
  intros _. exists e, s. by rewrite Hc.
Qed.

Lemma reject_body_authorized st id jc now e current_step :
  EXPENSES st !! id = Some e →
  (check_can_approve st (CURRENT_USER_ID st) e).1 = true →
  flow_of st e !! Expense.current_approver_index e = Some current_step →
  let e' :=
    Expense.append_history (decision_entry st "Rejected" current_step "Rejected." jc now)
      (Expense.set_status "Rejected" e) in
  ∃ msg,
    reject_expense_body id jc now st =
      (Ok 200 (mkDecision msg "Rejected"),
       set_EXPENSES (<[id := e']> (EXPENSES st)) st).
Proof.
  intros He Hc Hs e'. unfold reject_expense_body, get_current_user_id.
  rewrite He. destruct (check_can_approve _ _ _) as [[] reason]; [|done].
  rewrite Hs. eexists. reflexivity.
Qed.

Lemma reject_body_Ok_inv st id jc now c d st' :
  reject_expense_body id jc now st = (Ok c d, st') →
  ∃ e current_step,
    EXPENSES st !! id = Some e ∧
    (check_can_approve st (CURRENT_USER_ID st) e).1 = true ∧
    flow_of st e !! Expense.current_approver_index e = Some current_step.
Proof.
  unfold reject_expense_body, get_current_user_id.
  destruct (EXPENSES st !! id) as [e|]; [|done].
  destruct (check_can_approve _ _ _) as [[] reason] eqn:Hc; [|done].
  destruct (flow_of st e !! _) as [s|] eqn:Hs; [|done].
  intros _. exists e, s. by rewrite Hc.
Qed.

(** A handler behind the gate answers [Ok] only through its body. *)
Lemma require_role_Ok_inv {A} roles (f : State F → Response A * State F) st c d st' :
  require_role roles f st = (Ok c d, st') →
  f st = (Ok c d, st') ∧ CURRENT_USER_ID st ≠ "" ∧
  role_in (get_user_role st (CURRENT_USER_ID st)) roles = true.
Proof.
  destruct (require_role_cases roles f st) as [(-> & ? & ?)|[[-> _]|[-> _]]];
    [auto | discriminate | discriminate].
Qed.

(** The outcome of a successful approve call, in full. *)
Lemma approve_expense_Ok st id jc now c d st' :
  approve_expense st id jc now = (Ok c d, st') →
  ∃ e current_step,
    EXPENSES st !! id = Some e ∧
    flow_of st e !! Expense.current_approver_index e = Some current_step ∧
    st' = set_EXPENSES
            (<[id := advance (flow_of st e)
                       (Expense.append_history
                          (decision_entry st "Approved" current_step "Approved." jc now) e)]>
               (EXPENSES st)) st.
Proof.
  intros H. apply require_role_Ok_inv in H as (H & _ & _).
  destruct (approve_body_Ok_inv _ _ _ _ _ _ _ H) as (e & s & He & Hc & Hs).
  destruct (approve_body_authorized st id jc now e s He Hc Hs) as [msg Hb].
  exists e, s. split; [done|]. split; [done|]. congruence.
Qed.

(** The outcome of a successful reject call, in full. *)
Lemma reject_expense_Ok st id jc now c d st' :
  reject_expense st id jc now = (Ok c d, st') →
  ∃ e current_step,
    EXPENSES st !! id = Some e ∧
    flow_of st e !! Expense.current_approver_index e = Some current_step ∧
    st' = set_EXPENSES
            (<[id := Expense.append_history
                       (decision_entry st "Rejected" current_step "Rejected." jc now)
                       (Expense.set_status "Rejected" e)]>
               (EXPENSES st)) st.
Proof.
  intros H. apply require_role_Ok_inv in H as (H & _ & _).
  destruct (reject_body_Ok_inv _ _ _ _ _ _ _ H) as (e & s & He & Hc & Hs).
  destruct (reject_body_authorized st id jc now e s He Hc Hs) as [msg Hb].
  exists e, s. split; [done|]. split; [done|]. congruence.
Qed.

(** A finalized expense is refused by the check whoever asks. *)
Lemma check_can_approve_finalized st user_id e :
  finalized e = true →
  check_can_approve st user_id e = (false, Some finalized_reason).
Proof. intros Hf. unfold check_can_approve. by rewrite Hf. Qed.

Lemma approve_body_finalized st id jc now e :
  EXPENSES st !! id = Some e → finalized e = true →
  approve_expense_body id jc now st = (Error 403 (Some finalized_reason), st).
Proof.
  intros He Hf. unfold approve_expense_body. rewrite He.
  by rewrite (check_can_approve_finalized _ _ _ Hf).
Qed.

Lemma reject_body_finalized st id jc now e :
  EXPENSES st !! id = Some e → finalized e = true →
  reject_expense_body id jc now st = (Error 403 (Some finalized_reason), st).
Proof.
  intros He Hf. unfold reject_expense_body. rewrite He.
  by rewrite (check_can_approve_finalized _ _ _ Hf).
Qed.

(** The same outcomes, read off the two components of the result. *)
Lemma approve_expense_Ok_fst st id jc now c d :
  (approve_expense st id jc now).1 = Ok c d →
  ∃ e current_step,
    EXPENSES st !! id = Some e ∧
    flow_of st e !! Expense.current_approver_index e = Some current_step ∧
    (approve_expense st id jc now).2 =
      set_EXPENSES
        (<[id := advance (flow_of st e)
                   (Expense.append_history
                      (decision_entry st "Approved" current_step "Approved." jc now) e)]>
           (EXPENSES st)) st.
Proof.
  destruct (approve_expense st id jc now) as [r st'] eqn:E. simpl. intros ->.
  by apply approve_expense_Ok in E.
Qed.

Lemma reject_expense_Ok_fst st id jc now c d :
  (reject_expense st id jc now).1 = Ok c d →
  ∃ e current_step,
    EXPENSES st !! id = Some e ∧
    flow_of st e !! Expense.current_approver_index e = Some current_step ∧
    (reject_expense st id jc now).2 =
      set_EXPENSES
        (<[id := Expense.append_history
                   (decision_entry st "Rejected" current_step "Rejected." jc now)
                   (Expense.set_status "Rejected" e)]>
           (EXPENSES st)) st.
Proof.
  destruct (reject_expense st id jc now) as [r st'] eqn:E. simpl. intros ->.
  by apply reject_expense_Ok in E.
Qed.

(** Either handler answers [Ok] or leaves the state as it found it. *)
Lemma approve_expense_effect st id jc now :
  (∃ c d, (approve_expense st id jc now).1 = Ok c d) ∨
  (approve_expense st id jc now).2 = st.
Proof.
  unfold approve_expense.
  destruct (require_role_cases approver_roles (approve_expense_body id jc now) st)
    as [(-> & _ & _)|[[-> _]|(-> & _ & _)]]; [|by right..].
  destruct (EXPENSES st !! id) as [e|] eqn:He;
    [|unfold approve_expense_body; rewrite He; by right].
  destruct (check_can_approve st (CURRENT_USER_ID st) e) as [[] reason] eqn:Hc;
    [|unfold approve_expense_body, get_current_user_id; rewrite He, Hc; by right].
  destruct (flow_of st e !! Expense.current_approver_index e) as [s|] eqn:Hs;
    [|unfold approve_expense_body, get_current_user_id; rewrite He, Hc, Hs; by right].
  destruct (approve_body_authorized st id jc now e s He) as [msg ->];
    [by rewrite Hc|done|]. left. eauto.
Qed.

Lemma reject_expense_effect st id jc now :
  (∃ c d, (reject_expense st id jc now).1 = Ok c d) ∨
  (reject_expense st id jc now).2 = st.
Proof.
  unfold reject_expense.
  destruct (require_role_cases approver_roles (reject_expense_body id jc now) st)
    as [(-> & _ & _)|[[-> _]|(-> & _ & _)]]; [|by right..].
  destruct (EXPENSES st !! id) as [e|] eqn:He;
    [|unfold reject_expense_body; rewrite He; by right].
  destruct (check_can_approve st (CURRENT_USER_ID st) e) as [[] reason] eqn:Hc;
    [|unfold reject_expense_body, get_current_user_id; rewrite He, Hc; by right].
  destruct (flow_of st e !! Expense.current_approver_index e) as [s|] eqn:Hs;
    [|unfold reject_expense_body, get_current_user_id; rewrite He, Hc, Hs; by right].
  destruct (reject_body_authorized st id jc now e s He) as [msg ->];
    [by rewrite Hc|done|]. left. eauto.
Qed.



(** C4: on a pending expense whose current step is the first one and asks
    for a Manager, a user whose role is Manager is authorized exactly when
    the owner's recorded [manager_id] is that user; any other Manager is
    refused with the reason about the assigned manager, which is not the
    reason given for a wrong role. *)
Theorem manager_step_needs_assigned_manager st user_id e current_step :
  finalized e = false →
  Expense.current_approver_index e = 0 →
  flow_of st e !! 0 = Some current_step →
  Step.role current_step = "Manager" →
  get_user_role st user_id = Some "Manager" →
  ((check_can_approve st user_id e).1 = true ↔
     USERS st !! Expense.user_id e ≫= User.manager_id = Some user_id) ∧
  (USERS st !! Expense.user_id e ≫= User.manager_id = Some user_id →
     check_can_approve st user_id e = (true, None)) ∧
  (USERS st !! Expense.user_id e ≫= User.manager_id ≠ Some user_id →
     check_can_approve st user_id e = (false, Some not_manager_reason)) ∧
  not_manager_reason ≠ wrong_role_reason.
Proof.
  intros Hf Hi Hs Hr Hu.
  assert (Hc : check_can_approve st user_id e =
               if is_manager_of st user_id (Expense.user_id e)
               then (true, None) else (false, Some not_manager_reason)).
  { unfold check_can_approve. rewrite Hf, Hu, Hi, Hs, Hr. reflexivity. }
  rewrite Hc. unfold is_manager_of.
  split; [|split; [|split]].
  - destruct (bool_decide _) eqn:Hb; simpl.
    + apply bool_decide_eq_true in Hb. tauto.
    + apply bool_decide_eq_false in Hb. split; [discriminate|tauto].
  - intros Hm. by rewrite bool_decide_eq_true_2.
  - intros Hm. by rewrite bool_decide_eq_false_2.
  - discriminate.
Qed.

(** C5: the check lets an Admin through on every expense that is not
    finalized, whatever the index, the step and the owner; and when the
    index points at a step of the flow, both the approve and the reject
    call of an Admin succeed. *)
Theorem admin_overrides_every_step st user_id e :
  finalized e = false →
  get_user_role st user_id = Some "Admin" →
  check_can_approve st user_id e = (true, None) ∧
  (∀ id jc now,
     EXPENSES st !! id = Some e →
     CURRENT_USER_ID st = user_id → user_id ≠ "" →
     Expense.current_approver_index e < length (flow_of st e) →
     (∃ d, (approve_expense st id jc now).1 = Ok 200 d) ∧
     (∃ d, (reject_expense st id jc now).1 = Ok 200 d)).
Proof.
  intros Hf Hu.
  assert (Hc : check_can_approve st user_id e = (true, None)).
  { unfold check_can_approve. rewrite Hf, Hu. by rewrite decide_True. }
  split; [done|]. intros id jc now He Hid Hne Hlt. subst user_id.
  destruct (lookup_lt_is_Some_2 _ _ Hlt) as [s Hs].
  assert (Hg : role_in (get_user_role st (CURRENT_USER_ID st)) approver_roles = true)
    by (apply role_in_approver_roles; auto).
  unfold approve_expense, reject_expense. rewrite !require_role_pass by done.
  destruct (approve_body_authorized st id jc now e s He) as [m1 ->];
    [by rewrite Hc|done|].
  destruct (reject_body_authorized st id jc now e s He) as [m2 ->];
    [by rewrite Hc|done|].
  simpl. eauto.
Qed.

(** *** History *)

Lemma approve_appends st id e jc now c d :
  EXPENSES st !! id = Some e →
  (approve_expense st id jc now).1 = Ok c d →
  ∃ e' current_step,
    EXPENSES (approve_expense st id jc now).2 !! id = Some e' ∧
    flow_of st e !! Expense.current_approver_index e = Some current_step ∧
    Expense.history e' =
      Expense.history e ++
      [Entry.mk now "Approved" (Step.step_name current_step) (CURRENT_USER_ID st)
                (default (JStr "Approved.") jc)].
Proof.
  intros He Hok.
  destruct (approve_expense_Ok_fst _ _ _ _ _ _ Hok) as (e0 & s & He0 & Hs & ->).
  assert (e0 = e) as -> by congruence.
  eexists _, s. simpl. rewrite lookup_insert_eq. split; [done|]. split; [done|].
  by rewrite advance_history.
Qed.

Lemma reject_appends st id e jc now c d :
  EXPENSES st !! id = Some e →
  (reject_expense st id jc now).1 = Ok c d →
  ∃ e' current_step,
    EXPENSES (reject_expense st id jc now).2 !! id = Some e' ∧
    flow_of st e !! Expense.current_approver_index e = Some current_step ∧
    Expense.history e' =
      Expense.history e ++
      [Entry.mk now "Rejected" (Step.step_name current_step) (CURRENT_USER_ID st)
                (default (JStr "Rejected.") jc)] ∧
    Expense.status e' = "Rejected" ∧
    Expense.current_approver_index e' = Expense.current_approver_index e.
Proof.
  intros He Hok.
  destruct (reject_expense_Ok_fst _ _ _ _ _ _ Hok) as (e0 & s & He0 & Hs & ->).
  assert (e0 = e) as -> by congruence.
  eexists _, s. simpl. rewrite lookup_insert_eq. done.
Qed.

(** Whatever the answer, every expense keeps the history it had as a
    prefix of the one it has afterwards. *)
Lemma approve_keeps_history st id jc now id0 e0 :
  EXPENSES st !! id0 = Some e0 →
  ∃ e0', EXPENSES (approve_expense st id jc now).2 !! id0 = Some e0' ∧
         Expense.history e0 `prefix_of` Expense.history e0'.
Proof.
  intros He0.
  destruct (approve_expense_effect st id jc now) as [(c & d & Hok)| ->]; [|eauto].
  destruct (decide (id = id0)) as [->|Hne].
  - destruct (approve_appends _ _ _ _ _ _ _ He0 Hok) as (e' & s & He' & _ & Hh).
    exists e'. split; [done|]. rewrite Hh. by apply prefix_app_r.
  - destruct (approve_expense_Ok_fst _ _ _ _ _ _ Hok) as (e & s & _ & _ & ->).
    exists e0. simpl. by rewrite lookup_insert_ne.
Qed.

Lemma reject_keeps_history st id jc now id0 e0 :
  EXPENSES st !! id0 = Some e0 →
  ∃ e0', EXPENSES (reject_expense st id jc now).2 !! id0 = Some e0' ∧
         Expense.history e0 `prefix_of` Expense.history e0'.
Proof.
  intros He0.
  destruct (reject_expense_effect st id jc now) as [(c & d & Hok)| ->]; [|eauto].
  destruct (decide (id = id0)) as [->|Hne].
  - destruct (reject_appends _ _ _ _ _ _ _ He0 Hok) as (e' & s & He' & _ & Hh & _).
    exists e'. split; [done|]. rewrite Hh. by apply prefix_app_r.
  - destruct (reject_expense_Ok_fst _ _ _ _ _ _ Hok) as (e & s & _ & _ & ->).
    exists e0. simpl. by rewrite lookup_insert_ne.
Qed.

(** C7: a successful approve or reject call puts exactly one entry at the
    end of the expense's history: the label of the step the expense was at
    when the call was made, the acting user, and the comment of the request
    or else "Approved." / "Rejected."; a successful reject sets the status
    to "Rejected" and keeps the index; no call, whatever its answer, drops
    or rewrites an entry of any expense; two successful calls in a row
    leave their two entries in the order of the calls; and both calls do
    succeed, with answer 200 and exactly this update of the store, whenever
    the caller has an approver role, the check allows them and the expense
    is at a step of its flow. *)
Theorem decisions_append_to_history st id e jc now :
  EXPENSES st !! id = Some e →
  (∀ c d, (approve_expense st id jc now).1 = Ok c d →
     ∃ e' current_step,
       EXPENSES (approve_expense st id jc now).2 !! id = Some e' ∧
       flow_of st e !! Expense.current_approver_index e = Some current_step ∧
       Expense.history e' =
         Expense.history e ++
         [Entry.mk now "Approved" (Step.step_name current_step) (CURRENT_USER_ID st)
                   (default (JStr "Approved.") jc)]) ∧
  (∀ c d, (reject_expense st id jc now).1 = Ok c d →
     ∃ e' current_step,
       EXPENSES (reject_expense st id jc now).2 !! id = Some e' ∧
       flow_of st e !! Expense.current_approver_index e = Some current_step ∧
       Expense.history e' =
         Expense.history e ++
         [Entry.mk now "Rejected" (Step.step_name current_step) (CURRENT_USER_ID st)
                   (default (JStr "Rejected.") jc)] ∧
       Expense.status e' = "Rejected" ∧
       Expense.current_approver_index e' = Expense.current_approver_index e) ∧
  (∀ id0 e0, EXPENSES st !! id0 = Some e0 →
     (∃ e0', EXPENSES (approve_expense st id jc now).2 !! id0 = Some e0' ∧
             Expense.history e0 `prefix_of` Expense.history e0') ∧
     (∃ e0', EXPENSES (reject_expense st id jc now).2 !! id0 = Some e0' ∧
             Expense.history e0 `prefix_of` Expense.history e0')) ∧
  (∀ c d next_user jc2 now2 c2 d2,
     (approve_expense st id jc now).1 = Ok c d →
     let st1 := set_CURRENT_USER_ID next_user (approve_expense st id jc now).2 in
     ((approve_expense st1 id jc2 now2).1 = Ok c2 d2 →
      ∃ e'' h1 h2,
        EXPENSES (approve_expense st1 id jc2 now2).2 !! id = Some e'' ∧
        Expense.history e'' = Expense.history e ++ [h1; h2] ∧
        Entry.timestamp h1 = now ∧ Entry.timestamp h2 = now2) ∧
     ((reject_expense st1 id jc2 now2).1 = Ok c2 d2 →
      ∃ e'' h1 h2,
        EXPENSES (reject_expense st1 id jc2 now2).2 !! id = Some e'' ∧
        Expense.history e'' = Expense.history e ++ [h1; h2] ∧
        Entry.timestamp h1 = now ∧ Entry.timestamp h2 = now2)) ∧
  (∀ current_step,
     CURRENT_USER_ID st ≠ "" →
     role_in (get_user_role st (CURRENT_USER_ID st)) approver_roles = true →
     (check_can_approve st (CURRENT_USER_ID st) e).1 = true →
     flow_of st e !! Expense.current_approver_index e = Some current_step →
     let approved :=
       advance (flow_of st e)
         (Expense.append_history
            (Entry.mk now "Approved" (Step.step_name current_step) (CURRENT_USER_ID st)
                      (default (JStr "Approved.") jc)) e) in
     let rejected :=
       Expense.append_history
         (Entry.mk now "Rejected" (Step.step_name current_step) (CURRENT_USER_ID st)
                   (default (JStr "Rejected.") jc))
         (Expense.set_status "Rejected" e) in
     (∃ msg, approve_expense st id jc now =
        (Ok 200 (mkDecision msg (Expense.status approved)),
         set_EXPENSES (<[id := approved]> (EXPENSES st)) st)) ∧
     (∃ msg, reject_expense st id jc now =
        (Ok 200 (mkDecision msg "Rejected"),
         set_EXPENSES (<[id := rejected]> (EXPENSES st)) st))).
Proof.
  intros He. split; [|split; [|split; [|split]]].
  - intros c d. by apply approve_appends.
  - intros c d. by apply reject_appends.
  - intros id0 e0 He0. split.
    + by apply approve_keeps_history.
    + by apply reject_keeps_history.
  - intros c d next_user jc2 now2 c2 d2 Hok st1.
    destruct (approve_appends _ _ _ _ _ _ _ He Hok) as (e' & s & He' & _ & Hh).
    assert (He1 : EXPENSES st1 !! id = Some e') by exact He'.
    split; intros Hok2.
    + destruct (approve_appends _ _ _ _ _ _ _ He1 Hok2) as (e'' & s2 & He'' & _ & Hh2).
      eexists e'', _, _. split; [done|]. rewrite Hh2, Hh, <- app_assoc. simpl. done.
    + destruct (reject_appends _ _ _ _ _ _ _ He1 Hok2) as (e'' & s2 & He'' & _ & Hh2 & _).
      eexists e'', _, _. split; [done|]. rewrite Hh2, Hh, <- app_assoc. simpl. done.
  - intros current_step Hid Hrole Hc Hs approved rejected.
    unfold approve_expense, reject_expense.
    rewrite !require_role_pass by done. split.
    + exact (approve_body_authorized st id jc now e current_step He Hc Hs).
    + exact (reject_body_authorized st id jc now e current_step He Hc Hs).
Qed.

(** *** The check and the companies *)

Lemma with_user_company_role st user_id c k :
  get_user_role (with_user_company st user_id c) k = get_user_role st k.
Proof.
  unfold get_user_role, with_user_company. simpl.
  destruct (decide (user_id = k)) as [->|Hne].
  - rewrite lookup_alter_eq. by destruct (USERS st !! k).
  - by rewrite lookup_alter_ne.
Qed.

Lemma with_user_company_manager st user_id c k :
  USERS (with_user_company st user_id c) !! k ≫= User.manager_id =
  USERS st !! k ≫= User.manager_id.
Proof.
  unfold with_user_company. simpl.
  destruct (decide (user_id = k)) as [->|Hne].
  - rewrite lookup_alter_eq. by destruct (USERS st !! k).
  - by rewrite lookup_alter_ne.
Qed.

(** When the check lets a user through on a pending expense. *)
Lemma check_can_approve_allows st user_id e :
  finalized e = false →
  ((check_can_approve st user_id e).1 = true ↔
   get_user_role st user_id = Some "Admin" ∨
   ∃ current_step,
     flow_of st e !! Expense.current_approver_index e = Some current_step ∧
     get_user_role st user_id = Some (Step.role current_step) ∧
     (Expense.current_approver_index e = 0 → Step.role current_step = "Manager" →
      USERS st !! Expense.user_id e ≫= User.manager_id = Some user_id)).
Proof.
  intros Hf. unfold check_can_approve. rewrite Hf.
  destruct (decide (get_user_role st user_id = Some "Admin")) as [Ha|Ha];
    [simpl; tauto|].
  destruct (flow_of st e !! Expense.current_approver_index e) as [s|] eqn:Hs.
  - destruct (decide (get_user_role st user_id = Some (Step.role s))) as [Hr|Hr].
    + destruct (decide (Expense.current_approver_index e = 0 ∧ Step.role s = "Manager"))
        as [[H0 Hm]|Hn].
      * unfold is_manager_of. destruct (bool_decide _) eqn:Hb; simpl.
        -- apply bool_decide_eq_true in Hb. split; [|done].
           intros _. right. exists s. auto.
        -- apply bool_decide_eq_false in Hb. split; [done|].
           intros [?|(s' & Hs' & _ & Hm')]; [done|]. inversion Hs'; subst s'.
           by destruct Hb; apply Hm'.
      * simpl. split; [|done]. intros _. right. exists s.
        split; [done|]. split; [done|]. intros; by destruct Hn.
    + simpl. split; [done|].
      intros [?|(s' & Hs' & Hr' & _)]; [done|]. inversion Hs'; subst s'. done.
  - simpl. split; [done|]. intros [?|(s' & Hs' & _)]; done.
Qed.

(** C10: the check never looks at a company: its answer is the same when
    the expense's [company_id] or the acting user's [company_id] is replaced
    by any other; so a user of another company is let through on a pending
    expense as soon as the role is Admin, or the role is the one the current
    step asks for and, at step 0 with role Manager, the user is the owner's
    recorded manager. *)
Theorem check_can_approve_ignores_company st user_id u e :
  USERS st !! user_id = Some u →
  User.company_id u ≠ Expense.company_id e →
  finalized e = false →
  (∀ c, check_can_approve st user_id (Expense.set_company_id c e) =
        check_can_approve st user_id e) ∧
  (∀ c, check_can_approve (with_user_company st user_id c) user_id e =
        check_can_approve st user_id e) ∧
  (User.role u = "Admin" → check_can_approve st user_id e = (true, None)) ∧
  (∀ current_step,
     flow_of st e !! Expense.current_approver_index e = Some current_step →
     User.role u = Step.role current_step →
     (Expense.current_approver_index e = 0 → Step.role current_step = "Manager" →
      USERS st !! Expense.user_id e ≫= User.manager_id = Some user_id) →
     check_can_approve st user_id e = (true, None)).
Proof.
  intros Hu Hne Hf.
  assert (Hrole : get_user_role st user_id = Some (User.role u))
    by (unfold get_user_role; by rewrite Hu).
  assert (Hallow : (check_can_approve st user_id e).1 = true →
                   check_can_approve st user_id e = (true, None)).
  { unfold check_can_approve. rewrite Hf.
    repeat (case_match; simpl; try done). }
  split; [|split; [|split]].
  - intros c. reflexivity.
  - intros c. unfold check_can_approve, is_manager_of.
    rewrite with_user_company_role, with_user_company_manager. reflexivity.
  - intros Ha. apply Hallow, check_can_approve_allows; [done|].
    left. by rewrite Hrole, Ha.
  - intros s Hs Hr Hm. apply Hallow, check_can_approve_allows; [done|].
    right. exists s. rewrite Hrole, Hr. auto.
Qed.

(** *** The pending list *)

(** What the pending list of an admitted caller holds. *)
Lemma view_pending_expenses_lists st c l :
  (view_pending_expenses st).1 = Ok c l →
  ∃ u, USERS st !! CURRENT_USER_ID st = Some u ∧
    ∀ e, e ∈ l ↔
      (∃ id, EXPENSES st !! id = Some e) ∧
      pending_for st (CURRENT_USER_ID st) (Some (User.role u)) (User.company_id u) e = true.
Proof.
  unfold view_pending_expenses.
  destruct (require_role_cases approver_roles view_pending_expenses_body st)
    as [(-> & _ & _)|[[-> _]|(-> & _ & _)]]; [|done..].
  unfold view_pending_expenses_body, get_current_user_id, get_user_role.
  destruct (USERS st !! CURRENT_USER_ID st) as [u|]; [|done].
  simpl. intros [= _ <-]. exists u. split; [done|].
  intros e. rewrite list_elem_of_filter, list_elem_of_fmap. split.
  - intros [Hp ([id e0] & -> & Hin)]. apply elem_of_map_to_list in Hin. eauto.
  - intros [[id He] Hp]. split; [done|]. exists (id, e). split; [done|].
    by apply elem_of_map_to_list.
Qed.

(** The loop of [view_pending_expenses] and [check_can_approve] take the
    same decision on an expense of the caller's company whose index points
    into its flow, unless the step asks for a Manager at an index other
    than 0. *)
Lemma pending_for_agrees st user_id u e :
  USERS st !! user_id = Some u →
  Expense.current_approver_index e < length (flow_of st e) →
  (∀ current_step,
     flow_of st e !! Expense.current_approver_index e = Some current_step →
     Step.role current_step = "Manager" → Expense.current_approver_index e = 0) →
  (pending_for st user_id (Some (User.role u)) (User.company_id u) e = true ↔
   Expense.company_id e = User.company_id u ∧
   (check_can_approve st user_id e).1 = true).
Proof.
  intros Hu Hlt Hm0.
  destruct (lookup_lt_is_Some_2 _ _ Hlt) as [s Hs]. specialize (Hm0 s Hs).
  unfold pending_for, check_can_approve, get_user_role. rewrite Hu, Hs. simpl.
  destruct (decide (Expense.company_id e = User.company_id u)) as [Hc|Hc].
  - rewrite bool_decide_eq_false_2 by tauto. simpl.
    destruct (finalized e); simpl; [split; [done|intros [_ ?]; done]|].
    destruct (decide (Some (User.role u) = Some "Admin")); [tauto|].
    destruct (decide (Some (User.role u) = Some (Step.role s))); simpl;
      [|split; [done|intros [_ ?]; done]].
    destruct (decide (Step.role s = "Manager")) as [Hm|Hm].
    + rewrite decide_True by auto.
      destruct (is_manager_of _ _ _); simpl; tauto.
    + rewrite decide_False by tauto. tauto.
  - rewrite bool_decide_eq_true_2 by done. simpl. split; [done|tauto].
Qed.

(** *** Currency conversion *)

Lemma rate_lookup_None a b :
  rate_lookup a b = None ↔ a ∉ table_currencies ∨ b ∉ table_currencies.
Proof.
  unfold rate_lookup, mock_rates, table_currencies. simpl.
  rewrite !elem_of_cons, !elem_of_nil.
  rewrite !lookup_insert, lookup_empty.
  repeat case_decide; subst; simpl;
    rewrite ?lookup_insert, ?lookup_empty;
    repeat case_decide; subst; simpl;
    split; try done; try (intros [Hn|Hn]; exfalso; apply Hn; auto; fail);
    intros _; try (left; intros [?|[?|[?|[]]]]; done);
    right; intros [?|[?|[?|[]]]]; done.
Qed.

(** C9: the conversion returns the amount as it is when the two currency
    strings are equal (compared as they are, letter case included) and when
    the source looks up a currency that the rate table does not have; when
    the strings differ and both look-ups succeed, it returns the amount
    multiplied by the rate and rounded to two places. The table is looked
    up under [upper] of each string, so it never raises. *)
Theorem mock_currency_conversion_cases (from_currency to_currency : string) (amount : F) :
  (from_currency = to_currency →
     mock_currency_conversion from_currency to_currency amount = amount) ∧
  (upper from_currency ∉ table_currencies ∨ upper to_currency ∉ table_currencies →
     mock_currency_conversion from_currency to_currency amount = amount) ∧
  (from_currency ≠ to_currency →
   upper from_currency ∈ table_currencies → upper to_currency ∈ table_currencies →
     ∃ rate, rate_lookup (upper from_currency) (upper to_currency) = Some rate ∧
       mock_currency_conversion from_currency to_currency amount =
         round2 (fmul amount (float_lit rate))).
Proof.
  unfold mock_currency_conversion. split; [|split].
  - intros ->. by rewrite decide_True.
  - intros Habs. apply rate_lookup_None in Habs. rewrite Habs.
    by destruct (decide _).
  - intros Hne Hf Ht. rewrite decide_False by done.
    destruct (rate_lookup _ _) as [rate|] eqn:Hr; [eauto|].
    apply rate_lookup_None in Hr. tauto.
Qed.

(** *** Submission and the flow template *)

Lemma check_can_approve_ext st st' user_id e :
  USERS st = USERS st' → flow_of st e = flow_of st' e →
  check_can_approve st user_id e = check_can_approve st' user_id e.
Proof.
  intros Hu Hfl. unfold check_can_approve, get_user_role, is_manager_of.
  by rewrite Hu, Hfl.
Qed.

(** The expense a successful submission stores. *)
Lemma submit_expense_Ok_fst st data new_id c d :
  (submit_expense st data new_id).1 = Ok c d →
  ∃ e user company flow first_step,
    USERS st !! CURRENT_USER_ID st = Some user ∧
    COMPANIES st !! User.company_id user = Some company ∧
    heap st !! Company.approval_config company = Some flow ∧
    flow !! 0 = Some first_step ∧
    Expense.company_id e = User.company_id user ∧
    Expense.user_id e = CURRENT_USER_ID st ∧
    Expense.approval_flow e = Company.approval_config company ∧
    Expense.current_approver_index e = 0 ∧
    Expense.history e = [] ∧
    Expense.status e = "Pending (Manager Approval)" ∧
    (submit_expense st data new_id).2 =
      set_EXPENSES (<[new_id := e]> (EXPENSES st)) st.
Proof.
  unfold submit_expense.
  destruct (require_role_cases ["Employee"] (submit_expense_body data new_id) st)
    as [(-> & _ & _)|[[-> _]|(-> & _ & _)]]; [|done..].
  unfold submit_expense_body, get_current_user_id.
  destruct (body_amount data) as [a|]; [|done].
  destruct (body_currency data) as [cur|]; [|done].
  destruct (body_category data) as [cat|]; [|done].
  destruct (body_description data) as [descr|]; [|done].
  destruct (body_date data) as [dt|]; [|done].
  destruct (USERS st !! CURRENT_USER_ID st) as [user|] eqn:Hu; [|done].
  destruct (COMPANIES st !! User.company_id user) as [company|] eqn:Hc; [|done].
  destruct (float a) as [amount|exn]; [|by destruct (decide _)].
  destruct cur as [| | | |cur|]; try done.
  unfold flow_of. simpl.
  destruct (heap st !! Company.approval_config company) as [flow|] eqn:Hh; [|done].
  simpl. destruct (flow !! 0) as [first|] eqn:H0; [|done].
  simpl. intros _.
  eexists (Expense.mk _ _ _ _ _ _ _ _ _ _ _ _ _ _), user, company, flow, first.
  split_and!; done.
Qed.

(** What the stored reference would mean if the program had an operation on
    templates, which it has not: the [approval_flow] of a submitted expense
    is the list object of the company's [approval_config], not a copy of it.
    Binding [approval_config] to a new list would leave the expense, its
    flow and what the check answers for it unchanged; an update of the
    template list in place ([append], item assignment) would be an update
    of the expense's flow. *)
Theorem submitted_flow_is_the_template st data new_id c d :
  (submit_expense st data new_id).1 = Ok c d →
  let st1 := (submit_expense st data new_id).2 in
  ∃ e company,
    EXPENSES st1 !! new_id = Some e ∧
    COMPANIES st1 !! Expense.company_id e = Some company ∧
    Expense.approval_flow e = Company.approval_config company ∧
    (∀ steps st2,
       update_template st1 (Expense.company_id e) (Rebind steps) = Some st2 →
       EXPENSES st2 !! new_id = Some e ∧
       flow_of st2 e = flow_of st1 e ∧
       ∀ user_id, check_can_approve st2 user_id e = check_can_approve st1 user_id e) ∧
    (∀ s st2,
       update_template st1 (Expense.company_id e) (ListAppend s) = Some st2 →
       EXPENSES st2 !! new_id = Some e ∧
       flow_of st2 e = flow_of st1 e ++ [s]) ∧
    (∀ i s st2,
       update_template st1 (Expense.company_id e) (ListSetItem i s) = Some st2 →
       EXPENSES st2 !! new_id = Some e ∧
       flow_of st2 e = <[i := s]> (flow_of st1 e)).
Proof.
  intros Hok st1.
  destruct (submit_expense_Ok_fst _ _ _ _ _ Hok)
    as (e & user & company & flow & first & Hu & Hc & Hh & H0 & Hcid & _ & Hfl & _ & _ & _ & Hst).
  subst st1. rewrite Hst. exists e, company.
  assert (He : EXPENSES (set_EXPENSES (<[new_id := e]> (EXPENSES st)) st) !! new_id = Some e)
    by apply lookup_insert_eq.
  split; [done|]. rewrite Hcid. split; [done|]. split; [done|].
  unfold update_template. simpl. rewrite Hc. simpl.
  split; [|split].
  - intros steps st2 [= <-]. simpl. split; [done|].
    assert (Hsame : flow_of (set_COMPANIES
                      (<[User.company_id user :=
                           Company.mk (Company.id company) (Company.name company)
                             (Company.default_currency company) (fresh_loc (heap st))]>
                         (COMPANIES st))
                      (set_heap (<[fresh_loc (heap st) := steps]> (heap st))
                         (set_EXPENSES (<[new_id := e]> (EXPENSES st)) st))) e =
                    flow_of (set_EXPENSES (<[new_id := e]> (EXPENSES st)) st) e).
    { unfold flow_of. simpl. rewrite Hfl, lookup_insert_ne; [done|].
      intros Heq. pose proof (is_fresh (dom (heap st))) as Hfresh.
      apply Hfresh. unfold fresh_loc in Heq. rewrite Heq.
      apply elem_of_dom. eauto. }
    split; [done|]. intros user_id. by apply check_can_approve_ext.
  - intros s st2. rewrite Hh. simpl. intros [= <-]. split; [done|].
    unfold flow_of. simpl. by rewrite Hfl, lookup_insert_eq, Hh.
  - intros i s st2. rewrite Hh. simpl.
    destruct (decide (i < length flow)); [|done]. intros [= <-]. split; [done|].
    unfold flow_of. simpl. by rewrite Hfl, lookup_insert_eq, Hh.
Qed.

End Properties.

(** The submission of the specification's scenario: 100 EUR for a company
    that settles in USD. *)
Example scenario_submission :
  (submit_expense (acting_as "employee-1" staffed) trip "expense-1").1 =
    Ok 201 (mkSubmitted "Expense submitted successfully." "expense-1" "Manager Approval"
              (QArith_base.Qmake 108 1, "USD")) ∧
  EXPENSES submitted !! "expense-1" = Some trip_expense.
Proof. vm_compute. done. Qed.

(** The three approvals of the scenario, and the refusals around them. *)
Example scenario_approvals :
  status_of after_manager "expense-1" = Some "Pending (Finance Review)" ∧
  (approve_expense (acting_as "manager-2" submitted) "expense-1" None "t").1 =
    Error 403 (Some not_manager_reason) ∧
  status_of after_finance "expense-1" = Some "Pending (Director Sign-off)" ∧
  status_of after_admin "expense-1" = Some "Approved" ∧
  (approve_expense (acting_as "admin-user-123" after_admin) "expense-1" None "t").1 =
    Error 403 (Some finalized_reason) ∧
  (reject_expense (acting_as "admin-user-123" after_admin) "expense-1" None "t").1 =
    Error 403 (Some finalized_reason).
Proof. vm_compute. done. Qed.

(** With the caller the bootstrap leaves in place, the seeded Employee,
    the gate refuses every approval. *)
Example seeded_caller_cannot_approve :
  CURRENT_USER_ID submitted = "employee-1" ∧
  (approve_expense submitted "expense-1" None "t").1 =
    Error 403 (Some access_denied_reason).
Proof. vm_compute. done. Qed.

(** ** The seeded service: the scenario of the specification *)

(** At the first step of the scenario the flow has a next step: the
    contract of [process_next_approval_step] gives index 1 and the status
    of the Finance step. *)
Lemma process_next_approval_step_contract_at_submitted :
  EXPENSES submitted !! "expense-1" = Some trip_expense ∧
  ∃ e', EXPENSES (process_next_approval_step submitted "expense-1").2 !! "expense-1"
          = Some e' ∧
        Expense.current_approver_index e' = 1 ∧
        Expense.status e' = "Pending (Finance Review)".
Proof.
  assert (He : EXPENSES submitted !! "expense-1" = Some trip_expense)
    by (vm_compute; reflexivity).
  split; [exact He|].
  destruct (process_next_approval_step_contract submitted "expense-1" trip_expense He)
    as (_ & e' & He' & Hnext & _).
  destruct Hnext as (Hi & next & Hn & Hs); [vm_compute; lia|].
  exists e'. split; [exact He'|]. split; [exact Hi|].
  rewrite Hs. vm_compute in Hn. injection Hn as <-. reflexivity.
Defined.





(** In the scenario the assigned Manager passes the check at the first
    step. *)
Lemma manager_step_at_submitted :
  check_can_approve submitted "manager-1" trip_expense = (true, None).
Proof.
  destruct (manager_step_needs_assigned_manager submitted "manager-1" trip_expense
              (Step.mk "Manager" "Manager Approval"))
    as (_ & Hyes & _); [vm_compute; reflexivity..|].
  apply Hyes. vm_compute. reflexivity.
Defined.

(** The Admin of the scenario passes the check at the Finance step. *)
Lemma admin_overrides_at_after_manager :
  ∃ e, EXPENSES after_manager !! "expense-1" = Some e ∧
       Expense.current_approver_index e = 1 ∧
       check_can_approve after_manager "admin-user-123" e = (true, None).
Proof.
  destruct (EXPENSES after_manager !! "expense-1") as [e|] eqn:He;
    [|vm_compute in He; discriminate He].
  exists e. split; [reflexivity|].
  vm_compute in He. injection He as <-.
  split; [reflexivity|].
  apply admin_overrides_every_step; vm_compute; reflexivity.
Defined.

(** The Manager's approval of the scenario writes one entry, with the
    label of the step before the advance; their rejection of the same expense
    is answered 200, sets the status to "Rejected", keeps the index and
    writes one entry as well. *)
Lemma decisions_append_to_history_at_submitted :
  (∃ e', EXPENSES after_manager !! "expense-1" = Some e' ∧
         Expense.history e' =
           [Entry.mk "2024-01-02T09:00:00" "Approved" "Manager Approval" "manager-1"
                     (JStr "Approved.")]) ∧
  (∃ msg e',
     let answer := reject_expense (acting_as "manager-1" submitted) "expense-1"
                     (Some (JStr "No receipt.")) "2024-01-02T09:00:00" in
     answer.1 = Ok 200 (mkDecision msg "Rejected") ∧
     EXPENSES answer.2 !! "expense-1" = Some e' ∧
     Expense.status e' = "Rejected" ∧
     Expense.current_approver_index e' = 0 ∧
     Expense.history e' =
       [Entry.mk "2024-01-02T09:00:00" "Rejected" "Manager Approval" "manager-1"
                 (JStr "No receipt.")]).
Proof.
  split.
  - destruct (decisions_append_to_history (acting_as "manager-1" submitted) "expense-1"
                trip_expense None "2024-01-02T09:00:00")
      as (Happrove & _); [vm_compute; reflexivity|].
    destruct (Happrove 200
                (mkDecision
                   "Expense expense-1 approved at 'Manager Approval'. Moved to next step: Finance Review"
                   "Pending (Finance Review)"))
      as (e' & s & He' & Hs & Hh); [vm_compute; reflexivity|].
    exists e'. split; [exact He'|]. rewrite Hh.
    vm_compute in Hs. injection Hs as <-. reflexivity.
  - destruct (decisions_append_to_history (acting_as "manager-1" submitted) "expense-1"
                trip_expense (Some (JStr "No receipt.")) "2024-01-02T09:00:00")
      as (_ & _ & _ & _ & Hdoes); [vm_compute; reflexivity|].
    destruct (Hdoes (Step.mk "Manager" "Manager Approval"))
      as [_ [msg Hreject]];
      [intros Hid; vm_compute in Hid; discriminate Hid
      | vm_compute; reflexivity | vm_compute; reflexivity
      | vm_compute; reflexivity |].
    exists msg. eexists. cbv zeta. rewrite Hreject.
    split_and!; [reflexivity | apply lookup_insert_eq | vm_compute; reflexivity..].
Defined.

(** *** The flow template after submission *)

(** An in-place update of the template, which no handler performs, would
    reach the expense submitted before it: its flow would no longer be the
    one it was submitted with, and the assigned Manager would be refused. *)
Lemma template_update_reaches_submitted_expense :
  flow_of submitted trip_expense = default_steps ∧
  check_can_approve submitted "manager-1" trip_expense = (true, None) ∧
  (EXPENSES <$> retargeted) = Some (EXPENSES submitted) ∧
  ((λ st, flow_of st trip_expense) <$> retargeted) =
    Some [ Step.mk "Finance" "Finance Desk";
           Step.mk "Finance" "Finance Review";
           Step.mk "Admin" "Director Sign-off" ] ∧
  ((λ st, check_can_approve st "manager-1" trip_expense) <$> retargeted) =
    Some (false, Some wrong_role_reason).
Proof. vm_compute. done. Qed.

(** The expense of the scenario holds the list object of its company's
    template, and keeps its flow when the template is bound to a new list. *)
Lemma submitted_flow_is_the_template_at_scenario :
  ∃ e company,
    EXPENSES submitted !! "expense-1" = Some e ∧
    COMPANIES submitted !! Expense.company_id e = Some company ∧
    Expense.approval_flow e = Company.approval_config company ∧
    ∀ steps st2,
      update_template submitted (Expense.company_id e) (Rebind steps) = Some st2 →
      flow_of st2 e = flow_of submitted e.
Proof.
  destruct (submitted_flow_is_the_template (acting_as "employee-1" staffed) trip
              "expense-1" 201
              (mkSubmitted "Expense submitted successfully." "expense-1" "Manager Approval"
                 (QArith_base.Qmake 108 1, "USD")))
    as (e & company & He & Hc & Hfl & Hrebind & _); [vm_compute; reflexivity|].
  exists e, company. split; [exact He|]. split; [exact Hc|]. split; [exact Hfl|].
  intros steps st2 Hst2. exact (proj1 (proj2 (Hrebind steps st2 Hst2))).
Defined.

(** *** The pending list and the check on a flow with a later Manager step *)

(** Outside the states the program reaches, on a template with a Manager
    step at index 1 (no handler builds one): the check lets the second
    Manager, who is not the owner's manager, approve the expense, and the
    approve call succeeds; yet the pending list of that Manager is empty,
    because the loop of [view_pending_expenses] asks for the manager
    relationship at every Manager step and not only at step 0. *)
Lemma pending_list_misses_authorized_expense :
  ((λ st, index_of st "expense-1") <$> finance_first) = Some (Some 1) ∧
  ((λ st, status_of st "expense-1") <$> finance_first) =
    Some (Some "Pending (Manager Approval)") ∧
  ((λ st, (λ e, check_can_approve st "manager-2" e) <$> EXPENSES st !! "expense-1")
     <$> finance_first) = Some (Some (true, None)) ∧
  ((λ st, (approve_expense (acting_as "manager-2" st) "expense-1" None "t").1)
     <$> finance_first) =
    Some (Ok 200 (mkDecision
                    "Expense expense-1 approved at 'Manager Approval'. Expense fully approved."
                    "Approved")) ∧
  ((λ st, (view_pending_expenses (acting_as "manager-2" st)).1) <$> finance_first) =
    Some (Ok 200 []).
Proof. vm_compute. done. Qed.

(** On the default flow of the scenario the pending list of the assigned
    Manager is the submitted expense, which the check lets that Manager
    approve. *)
Example pending_list_of_assigned_manager :
  (view_pending_expenses (acting_as "manager-1" submitted)).1 = Ok 200 [trip_expense] ∧
  (view_pending_expenses (acting_as "manager-2" submitted)).1 = Ok 200 [] ∧
  (view_pending_expenses (acting_as "finance-1" submitted)).1 = Ok 200 [] ∧
  (view_pending_expenses (acting_as "admin-user-123" submitted)).1 = Ok 200 [trip_expense].
Proof. vm_compute. done. Qed.

(** *** Currency conversion on exact decimals *)

(** Equal strings, an unknown currency, and the EUR to USD rate. *)
Lemma mock_currency_conversion_cases_at_examples :
  mock_currency_conversion "EUR" "EUR" (QArith_base.Qmake 100 1) = QArith_base.Qmake 100 1 ∧
  mock_currency_conversion "GBP" "USD" (QArith_base.Qmake 100 1) = QArith_base.Qmake 100 1 ∧
  mock_currency_conversion "EUR" "USD" (QArith_base.Qmake 100 1) = QArith_base.Qmake 108 1.
Proof.
  destruct (mock_currency_conversion_cases "EUR" "EUR" (QArith_base.Qmake 100 1))
    as (Hsame & _ & _).
  destruct (mock_currency_conversion_cases "GBP" "USD" (QArith_base.Qmake 100 1))
    as (_ & Habsent & _).
  destruct (mock_currency_conversion_cases "EUR" "USD" (QArith_base.Qmake 100 1))
    as (_ & _ & Hrate).
  split; [exact (Hsame eq_refl)|]. split.
  - apply Habsent. left. unfold table_currencies.
    rewrite !elem_of_cons, elem_of_nil. vm_compute.
    intros [H|[H|[H|[]]]]; discriminate H.
  - destruct Hrate as (rate & Hr & ->).
    + discriminate.
    + unfold table_currencies. rewrite !elem_of_cons. vm_compute. auto.
    + unfold table_currencies. rewrite !elem_of_cons. vm_compute. auto.
    + vm_compute in Hr. injection Hr as <-. vm_compute. reflexivity.
Defined.

(** The look-up is under [upper], the test for equal currencies is not:
    "usd" to "USD" is a conversion at rate 1.0, which rounds the amount. *)
Example lower_case_currency_is_converted :
  mock_currency_conversion "usd" "EUR" (QArith_base.Qmake 100 1) = QArith_base.Qmake 93 1 ∧
  mock_currency_conversion "usd" "USD" (QArith_base.Qmake 1234 1000) =
    QArith_base.Qmake 123 100.
Proof. vm_compute. done. Qed.

(** *** A caller from another company *)

(** The Admin of another company passes the check on the expense of the
    scenario, and the approve call succeeds. *)
Lemma check_can_approve_ignores_company_at_outsider :
  ∃ e, EXPENSES with_outsider !! "expense-1" = Some e ∧
       Expense.company_id e = "company-1" ∧
       check_can_approve with_outsider "outsider-1" e = (true, None).
Proof.
  destruct (EXPENSES with_outsider !! "expense-1") as [e|] eqn:He;
    [|vm_compute in He; discriminate He].
  exists e. split; [reflexivity|].
  vm_compute in He. injection He as <-. split; [reflexivity|].
  destruct (check_can_approve_ignores_company with_outsider "outsider-1"
              (User.mk "outsider-1" "company-2" "Olga Outsider" "Admin" None)
              (Expense.mk "expense-1" "employee-1" "company-1" (QArith_base.Qmake 100 1)
                 "EUR" (QArith_base.Qmake 108 1) "USD" "Travel" "Trip" "2024-01-01"
                 "Pending (Finance Review)" DEFAULT_APPROVAL_FLOW 1
                 [Entry.mk "2024-01-02T09:00:00" "Approved" "Manager Approval" "manager-1"
                           (JStr "Approved.")]))
    as (_ & _ & Hadmin & _);
    [vm_compute; reflexivity | simpl; discriminate | vm_compute; reflexivity |].
  apply Hadmin. reflexivity.
Defined.

Example outsider_approves :
  (approve_expense (acting_as "outsider-1" with_outsider) "expense-1" None "t").1 =
    Ok 200 (mkDecision
              "Expense expense-1 approved at 'Finance Review'. Moved to next step: Director Sign-off"
              "Pending (Director Sign-off)").
Proof. vm_compute. done. Qed.

(** ** Further properties: refusals, the user table, submission *)

Section Refusals.
Context {F : Type} `{!PyPrims F}.

Implicit Types (st : State F) (e expense : Expense.t F).

Lemma require_role_unknown {A} roles (f : State F → Response A * State F) st :
  USERS st !! CURRENT_USER_ID st = None → CURRENT_USER_ID st ≠ "" →
  require_role roles f st =
    (Error 403 (Some ("Access denied. Required roles: " +:+ String.concat ", " roles)), st).
Proof.
  intros Hu Hid. unfold require_role, get_current_user_id, get_user_role.
  rewrite decide_False by done. by rewrite Hu.
Qed.

(** X1: a caller that is not in [USERS] is answered 401 by the status
    route and 403 by every other route, and no route changes the state. *)
Theorem unknown_caller_is_refused st :
  USERS st !! CURRENT_USER_ID st = None → CURRENT_USER_ID st ≠ "" →
  get_auth_status st = (Ok 401 (Unauthenticated (CURRENT_USER_ID st)), st) ∧
  ∀ req, req ≠ GetAuthStatus → dispatch st req = (403, st).
Proof.
  intros Hu Hid. split.
  - unfold get_auth_status, get_current_user_id. by rewrite Hu.
  - intros [| | | | | |] Hreq; [done|..]; unfold dispatch;
      unfold create_user, submit_expense, view_my_expenses, view_pending_expenses,
        approve_expense, reject_expense;
      by rewrite require_role_unknown.
Qed.

(** X2: an identifier that is not in [EXPENSES] makes
    [process_next_approval_step] report failure, and makes approve and
    reject answer 404 to a caller the gate admits; the state is unchanged
    whoever calls. *)
Theorem missing_expense_is_not_found st id jc now :
  EXPENSES st !! id = None →
  process_next_approval_step st id = ((false, "Expense not found."), st) ∧
  (approve_expense st id jc now).2 = st ∧
  (reject_expense st id jc now).2 = st ∧
  (CURRENT_USER_ID st ≠ "" →
   role_in (get_user_role st (CURRENT_USER_ID st)) approver_roles = true →
   (approve_expense st id jc now).1 = Error 404 (Some "Expense not found.") ∧
   (reject_expense st id jc now).1 = Error 404 (Some "Expense not found.")).
Proof.
  intros He.
  assert (Ha : approve_expense_body id jc now st =
               (Error 404 (Some "Expense not found."), st))
    by (unfold approve_expense_body; by rewrite He).
  assert (Hr : reject_expense_body id jc now st =
               (Error 404 (Some "Expense not found."), st))
    by (unfold reject_expense_body; by rewrite He).
  split; [unfold process_next_approval_step; by rewrite He|].
  unfold approve_expense, reject_expense.
  destruct (require_role_cases approver_roles (approve_expense_body id jc now) st)
    as [(-> & ? & ?)|[[-> ?]|(-> & ? & ?)]];
  destruct (require_role_cases approver_roles (reject_expense_body id jc now) st)
    as [(-> & ? & ?)|[[-> ?]|(-> & ? & ?)]];
    rewrite ?Ha, ?Hr; simpl; split_and!; try done; intros; congruence.
Qed.

(** *** [create_user] *)

Lemma create_user_body_cases st data new_user_id :
  (∃ admin name role manager_json,
     USERS st !! CURRENT_USER_ID st = Some admin ∧
     body_name data = Some name ∧ body_role data = Some role ∧
     body_manager_id data = Some manager_json ∧
     role ∈ ["Employee"; "Manager"; "Finance"] ∧
     create_user_body data new_user_id st =
       (Ok 201 ("User " +:+ name +:+ " created.", new_user_id),
        set_USERS (<[new_user_id := created_user admin new_user_id name role manager_json]>
                     (USERS st)) st)) ∨
  ((create_user_body data new_user_id st).2 = st ∧
   ∀ c p, (create_user_body data new_user_id st).1 ≠ Ok c p).
Proof.
  unfold create_user_body, get_current_user_id.
  destruct (body_name data) as [name|]; [|by right].
  destruct (body_role data) as [role|]; [|by right].
  destruct (body_manager_id data) as [m|]; [|by right].
  destruct (bool_decide _) eqn:Hb; [|by right].
  apply bool_decide_eq_true in Hb.
  destruct (USERS st !! CURRENT_USER_ID st) as [admin|] eqn:Hu; [|by right].
  left. exists admin, name, role, m. done.
Qed.

(** X3: [create_user] answers 201 exactly when the caller's role is Admin
    and the body has the three keys with a role among Employee, Manager and
    Finance; it then stores one user, in the caller's company, whose
    [manager_id] is the one of the body, or [None] for null or the empty
    string. Any other answer leaves the state unchanged. *)
Theorem create_user_outcome st data new_user_id :
  (∀ c p, (create_user st data new_user_id).1 = Ok c p →
     ∃ admin name role manager_json,
       USERS st !! CURRENT_USER_ID st = Some admin ∧ User.role admin = "Admin" ∧
       body_name data = Some name ∧ body_role data = Some role ∧
       body_manager_id data = Some manager_json ∧
       role ∈ ["Employee"; "Manager"; "Finance"] ∧
       c = 201 ∧ p = ("User " +:+ name +:+ " created.", new_user_id) ∧
       (create_user st data new_user_id).2 =
         set_USERS (<[new_user_id := created_user admin new_user_id name role manager_json]>
                      (USERS st)) st) ∧
  (∀ admin name role manager_json,
     CURRENT_USER_ID st ≠ "" →
     USERS st !! CURRENT_USER_ID st = Some admin → User.role admin = "Admin" →
     body_name data = Some name → body_role data = Some role →
     body_manager_id data = Some manager_json →
     role ∈ ["Employee"; "Manager"; "Finance"] →
     (create_user st data new_user_id).1 =
       Ok 201 ("User " +:+ name +:+ " created.", new_user_id)) ∧
  ((∀ c p, (create_user st data new_user_id).1 ≠ Ok c p) →
   (create_user st data new_user_id).2 = st).
Proof.
  unfold create_user. split; [|split].
  - intros c p Hok.
    destruct (require_role_cases ["Admin"] (create_user_body data new_user_id) st)
      as [(Heq & Hid & Hr)|[[Heq ?]|(Heq & ? & ?)]]; rewrite Heq in Hok |- *;
      [|done..].
    destruct (create_user_body_cases st data new_user_id)
      as [(admin & name & role & m & Hu & Hn & Hro & Hm & Hin & Hb)|[_ Hno]];
      [|by destruct (Hno c p)].
    rewrite Hb in Hok |- *. simpl in Hok. injection Hok as <- <-.
    exists admin, name, role, m. split_and!; try done.
    unfold get_user_role in Hr. rewrite Hu in Hr. simpl in Hr.
    apply bool_decide_eq_true in Hr. rewrite elem_of_cons, elem_of_nil in Hr.
    by destruct Hr as [Hr|[]].
  - intros admin name role m Hid Hu Hadm Hn Hro Hm Hin.
    rewrite require_role_pass; [|done|].
    + unfold create_user_body, get_current_user_id.
      rewrite Hn, Hro, Hm, Hu. by rewrite bool_decide_eq_true_2.
    + unfold get_user_role. rewrite Hu. simpl. rewrite Hadm. done.
  - intros Hno.
    destruct (require_role_cases ["Admin"] (create_user_body data new_user_id) st)
      as [(Heq & Hid & Hr)|[[Heq ?]|(Heq & ? & ?)]]; rewrite Heq in Hno |- *;
      [|done..].
    destruct (create_user_body_cases st data new_user_id)
      as [(admin & name & role & m & _ & _ & _ & _ & _ & Hb)|[Hsame _]]; [|done].
    rewrite Hb in Hno. by destruct (Hno 201 ("User " +:+ name +:+ " created.", new_user_id)).
Qed.

(** What [create_user] does to the state, whatever it answers. *)
Lemma create_user_effect st data new_user_id :
  (create_user st data new_user_id).2 = st ∨
  ∃ admin name role manager_json,
    USERS st !! CURRENT_USER_ID st = Some admin ∧
    role ∈ ["Employee"; "Manager"; "Finance"] ∧
    (create_user st data new_user_id).2 =
      set_USERS (<[new_user_id := created_user admin new_user_id name role manager_json]>
                   (USERS st)) st.
Proof.
  unfold create_user.
  destruct (require_role_cases ["Admin"] (create_user_body data new_user_id) st)
    as [(-> & _ & _)|[[-> ?]|(-> & ? & ?)]]; [|by left..].
  destruct (create_user_body_cases st data new_user_id)
    as [(admin & name & role & m & Hu & _ & _ & _ & Hin & ->)|[Hsame _]]; [|by left].
  right. exists admin, name, role, m. done.
Qed.

(** X4: [create_user] never adds an Admin: a user with role Admin in the
    table after the call was there, unchanged, before it. The call touches
    no company, no expense, no list object and not the caller. *)
Theorem create_user_never_adds_admin st data new_user_id :
  (∀ k u, USERS (create_user st data new_user_id).2 !! k = Some u →
          User.role u = "Admin" → USERS st !! k = Some u) ∧
  COMPANIES (create_user st data new_user_id).2 = COMPANIES st ∧
  EXPENSES (create_user st data new_user_id).2 = EXPENSES st ∧
  heap (create_user st data new_user_id).2 = heap st ∧
  CURRENT_USER_ID (create_user st data new_user_id).2 = CURRENT_USER_ID st.
Proof.
  destruct (create_user_effect st data new_user_id)
    as [->|(admin & name & role & m & _ & Hin & ->)]; [done|].
  simpl. split; [|done]. intros k u Hk Hadm.
  destruct (decide (new_user_id = k)) as [->|Hne].
  - rewrite lookup_insert_eq in Hk. injection Hk as <-. simpl in Hadm. subst role.
    rewrite !elem_of_cons, elem_of_nil in Hin.
    destruct Hin as [Hin|[Hin|[Hin|[]]]]; discriminate Hin.
  - by rewrite lookup_insert_ne in Hk.
Qed.

End Refusals.

Section Submission.
Context {F : Type} `{!PyPrims F}.

Implicit Types (st : State F) (e expense : Expense.t F).

(** The exceptions of [float]. *)
Lemma float_raises (v : Json) exn :
  float (F := F) v = Raises exn →
  exn = "ValueError" ∨ exn = "OverflowError" ∨ exn = "TypeError".
Proof.
  unfold float. destruct v as [|b|n|d|s|]; simpl; try done.
  - intros [= <-]. auto.
  - destruct (float_of_int n); [done|]. intros [= <-]. auto.
  - destruct (float_of_str s); [done|]. intros [= <-]. auto.
  - intros [= <-]. auto.
Qed.

(** The ways [submit_expense_body] can go. *)
Lemma submit_expense_body_cases st data new_id :
  ((body_amount data = None ∨ body_currency data = None ∨ body_category data = None ∨
    body_description data = None ∨ body_date data = None) ∧
     submit_expense_body data new_id st =
       (Error 400
          (Some "Missing required fields: amount, currency, category, description, date"),
        st)) ∨
  (submit_expense_body data new_id st = (Raised "KeyError", st)) ∨
  (∃ user company amount_json,
     USERS st !! CURRENT_USER_ID st = Some user ∧
     COMPANIES st !! User.company_id user = Some company ∧
     body_amount data = Some amount_json ∧ float amount_json = Raises "ValueError" ∧
     submit_expense_body data new_id st = (Error 400 (Some "Invalid amount format."), st)) ∨
  (conversion_raises data ∧
   ∃ exn, submit_expense_body data new_id st = (Raised exn, st)) ∨
  (∃ user company amount_json amount currency category description date,
     USERS st !! CURRENT_USER_ID st = Some user ∧
     COMPANIES st !! User.company_id user = Some company ∧
     body_amount data = Some amount_json ∧ float amount_json = Returns amount ∧
     body_currency data = Some (JStr currency) ∧ body_category data = Some category ∧
     body_description data = Some description ∧ body_date data = Some date ∧
     let e := submitted_expense st user company new_id amount currency category
                description date in
     let st' := set_EXPENSES (<[new_id := e]> (EXPENSES st)) st in
     match flow_of st e !! 0 with
     | Some first_step =>
       submit_expense_body data new_id st =
         (Ok 201 (mkSubmitted "Expense submitted successfully." new_id
                    (Step.step_name first_step)
                    (Expense.converted_amount e, Company.default_currency company)), st')
     | None => submit_expense_body data new_id st = (Raised "IndexError", st')
     end).
Proof.
  unfold submit_expense_body, get_current_user_id, conversion_raises.
  destruct (body_amount data) as [a|]; [|left; split; [auto|done]].
  destruct (body_currency data) as [cur|]; [|left; split; [auto|done]].
  destruct (body_category data) as [cat|]; [|left; split; [auto|done]].
  destruct (body_description data) as [descr|]; [|left; split; [auto 6|done]].
  destruct (body_date data) as [dt|]; [|left; split; [auto 6|done]].
  destruct (USERS st !! CURRENT_USER_ID st) as [user|] eqn:Hu; [|by right; left].
  destruct (COMPANIES st !! User.company_id user) as [company|] eqn:Hc;
    [|by right; left].
  destruct (float a) as [amount|exn] eqn:Ha.
  - destruct cur as [| | | |cur|];
      try (right; right; right; left; split; [|by eexists];
           right; exists a, amount; eexists; split_and!; done).
    right; right; right; right.
    exists user, company, a, amount, cur, cat, descr, dt. split_and!; try done.
    unfold flow_of, submitted_expense. simpl.
    by destruct (default [] (heap st !! Company.approval_config company) !! 0).
  - destruct (decide (exn = "ValueError")) as [->|Hne].
    + right; right; left. exists user, company, a. done.
    + right; right; right; left. split; [|by eexists].
      left. exists a, exn. done.
Qed.

(** X5: a submission answered 201 was made by an Employee whose company is
    known, with the five keys present and an amount [float] accepts. It
    stores exactly one expense under the new identifier: owned by the
    caller, in the caller's company, with the amount converted to the
    company's currency, at index 0 with an empty history, holding the
    company's template, and with the status text "Pending (Manager
    Approval)" whatever the first step is called; the answer names the
    label of the first step of the template. *)
Theorem submit_expense_stores_pending_expense st data new_id c p :
  (submit_expense st data new_id).1 = Ok c p →
  ∃ user company amount_json amount currency category description date first_step,
    USERS st !! CURRENT_USER_ID st = Some user ∧ User.role user = "Employee" ∧
    COMPANIES st !! User.company_id user = Some company ∧
    body_amount data = Some amount_json ∧ float amount_json = Returns amount ∧
    body_currency data = Some (JStr currency) ∧ body_category data = Some category ∧
    body_description data = Some description ∧ body_date data = Some date ∧
    let e := submitted_expense st user company new_id amount currency category
               description date in
    flow_of st e !! 0 = Some first_step ∧
    c = 201 ∧
    p = mkSubmitted "Expense submitted successfully." new_id (Step.step_name first_step)
          (mock_currency_conversion currency (Company.default_currency company) amount,
           Company.default_currency company) ∧
    (submit_expense st data new_id).2 = set_EXPENSES (<[new_id := e]> (EXPENSES st)) st.
Proof.
  unfold submit_expense. intros Hok.
  destruct (require_role_cases ["Employee"] (submit_expense_body data new_id) st)
    as [(Heq & Hid & Hr)|[[Heq ?]|(Heq & ? & ?)]]; rewrite Heq in Hok |- *; [|done..].
  destruct (submit_expense_body_cases st data new_id)
    as [[_ Hb]|[Hb|[(? & ? & ? & _ & _ & _ & _ & Hb)|[(_ & ? & Hb)|
        (user & company & a & amount & cur & cat & descr & dt &
         Hu & Hc & Ha & Hf & Hcur & Hcat & Hd & Hdt & Hb)]]]];
    [rewrite Hb in Hok; done..|].
  simpl in Hb.
  destruct (flow_of st _ !! 0) as [first|] eqn:H0;
    rewrite Hb in Hok |- *; [|done]. simpl in Hok. injection Hok as <- <-.
  exists user, company, a, amount, cur, cat, descr, dt, first.
  split_and!; try done.
  unfold get_user_role in Hr. rewrite Hu in Hr. simpl in Hr.
  apply bool_decide_eq_true in Hr. rewrite elem_of_cons, elem_of_nil in Hr.
  by destruct Hr as [Hr|[]].
Qed.

(** X6: how [submit_expense] refuses. Every refusal with an error body
    leaves the state unchanged; a caller whose role is not Employee is
    answered 403; an Employee is answered 400 when one of the five
    keys is missing, and 400 "Invalid amount format." exactly when [float]
    raises [ValueError] on the amount. What else [float] raises
    ([TypeError] for null, a list or a dictionary, [OverflowError] for an
    integer too large) is not caught, and neither is the [AttributeError]
    of a currency that is not a string: the request fails with that
    exception, before anything is stored. *)
Theorem submit_expense_refusals st data new_id :
  (∀ c m, (submit_expense st data new_id).1 = Error c m →
          (submit_expense st data new_id).2 = st) ∧
  (CURRENT_USER_ID st ≠ "" →
   get_user_role st (CURRENT_USER_ID st) ≠ Some "Employee" →
   submit_expense st data new_id =
     (Error 403 (Some "Access denied. Required roles: Employee"), st)) ∧
  (CURRENT_USER_ID st ≠ "" →
   get_user_role st (CURRENT_USER_ID st) = Some "Employee" →
   body_amount data = None ∨ body_currency data = None ∨ body_category data = None ∨
   body_description data = None ∨ body_date data = None →
   submit_expense st data new_id =
     (Error 400
        (Some "Missing required fields: amount, currency, category, description, date"),
      st)) ∧
  (∀ user company amount_json currency_json category description date,
     CURRENT_USER_ID st ≠ "" →
     USERS st !! CURRENT_USER_ID st = Some user → User.role user = "Employee" →
     COMPANIES st !! User.company_id user = Some company →
     body_amount data = Some amount_json → body_currency data = Some currency_json →
     body_category data = Some category → body_description data = Some description →
     body_date data = Some date →
     (float amount_json = Raises "ValueError" →
      submit_expense st data new_id = (Error 400 (Some "Invalid amount format."), st)) ∧
     (∀ exn, float amount_json = Raises exn → exn ≠ "ValueError" →
      submit_expense st data new_id = (Raised exn, st)) ∧
     (∀ amount, float amount_json = Returns amount →
      (∀ currency, currency_json ≠ JStr currency) →
      submit_expense st data new_id = (Raised "AttributeError", st)) ∧
     ((submit_expense st data new_id).1 = Error 400 (Some "Invalid amount format.") →
      float amount_json = Raises "ValueError")) ∧
  (∀ amount_json exn, float amount_json = Raises exn →
     (exn = "ValueError" ∧ ∃ s, amount_json = JStr s) ∨
     (exn = "OverflowError" ∧ ∃ n, amount_json = JInt n) ∨
     (exn = "TypeError" ∧ (amount_json = JNull ∨ amount_json = JCompound))).
Proof.
  unfold submit_expense. split_and!.
  - intros c m Herr.
    destruct (require_role_cases ["Employee"] (submit_expense_body data new_id) st)
      as [(Heq & _ & _)|[[Heq ?]|(Heq & ? & ?)]]; rewrite Heq in Herr |- *; [|done..].
    destruct (submit_expense_body_cases st data new_id)
      as [[_ Hb]|[Hb|[(? & ? & ? & _ & _ & _ & _ & Hb)|[(_ & ? & Hb)|
          (user & company & a & amount & cur & cat & descr & dt &
           _ & _ & _ & _ & _ & _ & _ & _ & Hb)]]]];
      [by rewrite Hb..|].
    simpl in Hb. destruct (flow_of st _ !! 0); rewrite Hb in Herr; done.
  - intros Hid Hr. unfold require_role, get_current_user_id.
    rewrite decide_False by done.
    destruct (get_user_role st (CURRENT_USER_ID st)) as [r|]; [|done]. simpl.
    rewrite bool_decide_eq_false_2; [done|].
    rewrite elem_of_cons, elem_of_nil. intros [->|[]]. done.
  - intros Hid Hr Hmiss. rewrite require_role_pass; [|done|by rewrite Hr].
    unfold submit_expense_body.
    destruct (body_amount data), (body_currency data), (body_category data),
      (body_description data), (body_date data); try done;
      by destruct Hmiss as [?|[?|[?|[?|?]]]].
  - intros user company a cur cat descr dt Hid Hu Hr Hc Ha Hcur Hcat Hd Hdt.
    assert (Hg : role_in (get_user_role st (CURRENT_USER_ID st)) ["Employee"] = true)
      by (unfold get_user_role; rewrite Hu; simpl; by rewrite Hr).
    rewrite require_role_pass by done.
    unfold submit_expense_body, get_current_user_id.
    rewrite Ha, Hcur, Hcat, Hd, Hdt, Hu, Hc.
    split_and!.
    + by intros ->.
    + intros exn -> Hne. by rewrite decide_False.
    + intros amount -> Hn. destruct cur as [| | | |cur|]; try done.
      by destruct (Hn cur).
    + destruct (float a) as [amount|exn]; simpl.
      * destruct cur as [| | | |cur|]; try done.
        unfold flow_of. simpl. by destruct (default [] _ !! 0).
      * destruct (decide (exn = "ValueError")) as [->|]; done.
  - intros a exn. unfold float.
    destruct a as [|b|n|d|s|]; simpl.
    + intros [= <-]. right; right. auto.
    + done.
    + destruct (float_of_int n); [done|]. intros [= <-]. right; left. eauto.
    + done.
    + destruct (float_of_str s); [done|]. intros [= <-]. left. eauto.
    + intros [= <-]. right; right. auto.
Qed.

(** X7: when the template of the caller's company is an empty list, a
    well-formed submission raises [IndexError] only after the expense has
    been stored; the stored expense is pending at index 0 of an empty flow,
    and an Admin who then approves or rejects it gets [IndexError] too,
    with no further change. *)
Theorem submit_expense_empty_template st data new_id user company amount_json amount
    currency category description date :
  CURRENT_USER_ID st ≠ "" →
  USERS st !! CURRENT_USER_ID st = Some user → User.role user = "Employee" →
  COMPANIES st !! User.company_id user = Some company →
  body_amount data = Some amount_json → float amount_json = Returns amount →
  body_currency data = Some (JStr currency) → body_category data = Some category →
  body_description data = Some description → body_date data = Some date →
  heap st !! Company.approval_config company = Some [] →
  let e := submitted_expense st user company new_id amount currency category
             description date in
  let st' := set_EXPENSES (<[new_id := e]> (EXPENSES st)) st in
  submit_expense st data new_id = (Raised "IndexError", st') ∧
  ∀ admin jc now,
    admin ≠ "" → get_user_role st admin = Some "Admin" →
    approve_expense (set_CURRENT_USER_ID admin st') new_id jc now =
      (Raised "IndexError", set_CURRENT_USER_ID admin st') ∧
    reject_expense (set_CURRENT_USER_ID admin st') new_id jc now =
      (Raised "IndexError", set_CURRENT_USER_ID admin st').
Proof.
  intros Hid Hu Hr Hc Ha Hf Hcur Hcat Hd Hdt Hh e st'. split.
  - unfold submit_expense. rewrite require_role_pass; [|done|].
    + unfold submit_expense_body, get_current_user_id.
      rewrite Ha, Hcur, Hcat, Hd, Hdt, Hu, Hc, Hf.
      unfold flow_of. simpl. by rewrite Hh.
    + unfold get_user_role. rewrite Hu. simpl. by rewrite Hr.
  - intros admin jc now Hne Hadm.
    assert (Hg : role_in (get_user_role (set_CURRENT_USER_ID admin st')
                            (CURRENT_USER_ID (set_CURRENT_USER_ID admin st')))
                   approver_roles = true)
      by (apply role_in_approver_roles; right; left; exact Hadm).
    assert (He : EXPENSES (set_CURRENT_USER_ID admin st') !! new_id = Some e)
      by apply lookup_insert_eq.
    assert (Hchk : check_can_approve (set_CURRENT_USER_ID admin st') admin e = (true, None)).
    { unfold check_can_approve.
      change (finalized e) with false.
      change (get_user_role (set_CURRENT_USER_ID admin st') admin)
        with (get_user_role st admin).
      rewrite Hadm. by rewrite decide_True. }
    assert (Hfl : flow_of (set_CURRENT_USER_ID admin st') e !!
                    Expense.current_approver_index e = None).
    { unfold flow_of. simpl. by rewrite Hh. }
    unfold approve_expense, reject_expense.
    rewrite !require_role_pass by done.
    unfold approve_expense_body, reject_expense_body, get_current_user_id.
    rewrite He. change (CURRENT_USER_ID (set_CURRENT_USER_ID admin st')) with admin.
    rewrite Hchk, Hfl. done.
Qed.

End Submission.

(** ** Further properties: the two listings *)

Section Listings.
Context {F : Type} `{!PyPrims F}.

Implicit Types (st : State F) (e expense : Expense.t F).

(** X8: [view_my_expenses] never changes the state; to a caller it admits
    (Employee, Manager, Admin) it lists exactly the stored expenses whose
    owner is the caller; a Finance caller is refused with 403. *)
Theorem view_my_expenses_lists st :
  (view_my_expenses st).2 = st ∧
  (∀ c l, (view_my_expenses st).1 = Ok c l →
     c = 200 ∧
     ∀ e, e ∈ l ↔
       (∃ id, EXPENSES st !! id = Some e) ∧ Expense.user_id e = CURRENT_USER_ID st) ∧
  (CURRENT_USER_ID st ≠ "" →
   get_user_role st (CURRENT_USER_ID st) = Some "Finance" →
   (view_my_expenses st).1 =
     Error 403 (Some "Access denied. Required roles: Employee, Manager, Admin")).
Proof.
  unfold view_my_expenses. split_and!.
  - destruct (require_role_cases ["Employee"; "Manager"; "Admin"] view_my_expenses_body st)
      as [(-> & _ & _)|[[-> _]|(-> & _ & _)]]; done.
  - intros c l.
    destruct (require_role_cases ["Employee"; "Manager"; "Admin"] view_my_expenses_body st)
      as [(-> & _ & _)|[[-> _]|(-> & _ & _)]]; [|done..].
    unfold view_my_expenses_body, get_current_user_id. simpl.
    intros [= <- <-]. split; [done|]. intros e.
    rewrite list_elem_of_filter, list_elem_of_fmap. split.
    + intros [Ho ([id e0] & -> & Hin)]. apply elem_of_map_to_list in Hin. eauto.
    + intros [[id He] Ho]. split; [done|]. exists (id, e). split; [done|].
      by apply elem_of_map_to_list.
  - intros Hid Hr. unfold require_role, get_current_user_id.
    rewrite decide_False by done. by rewrite Hr.
Qed.

(** What is true of an expense the loop of [view_pending_expenses] keeps. *)
Lemma pending_for_sound st user_id role company_id e :
  get_user_role st user_id = Some role →
  pending_for st user_id (Some role) company_id e = true →
  Expense.company_id e = company_id ∧ finalized e = false ∧
  Expense.current_approver_index e < length (flow_of st e) ∧
  check_can_approve st user_id e = (true, None).
Proof.
  intros Hr. unfold pending_for, check_can_approve. rewrite Hr.
  destruct (decide (Expense.company_id e = company_id)) as [Hc|Hc];
    [rewrite bool_decide_eq_false_2 by tauto|rewrite bool_decide_eq_true_2 by done];
    simpl; [|done].
  destruct (finalized e); simpl; [done|].
  destruct (flow_of st e !! Expense.current_approver_index e) as [s|] eqn:Hs; [|done].
  apply lookup_lt_Some in Hs.
  destruct (decide (Some role = Some "Admin")); [done|].
  destruct (decide (Some role = Some (Step.role s))); [|done].
  destruct (decide (Step.role s = "Manager")) as [Hm|Hm].
  - destruct (decide (Expense.current_approver_index e = 0 ∧ Step.role s = "Manager")).
    + intros ->. done.
    + done.
  - rewrite decide_False by tauto. done.
Qed.

(** X10: every expense on the caller's pending list is one the caller can
    act on: it is not finalized, it belongs to the caller's company, the
    check lets the caller through, and both the approve and the reject
    call of that caller on it are answered 200. *)
Theorem pending_list_is_actionable st c l e :
  (view_pending_expenses st).1 = Ok c l → e ∈ l →
  finalized e = false ∧
  (∃ u, USERS st !! CURRENT_USER_ID st = Some u ∧
        Expense.company_id e = User.company_id u) ∧
  check_can_approve st (CURRENT_USER_ID st) e = (true, None) ∧
  ∀ id jc now, EXPENSES st !! id = Some e →
    (∃ d, (approve_expense st id jc now).1 = Ok 200 d) ∧
    (∃ d, (reject_expense st id jc now).1 = Ok 200 d).
Proof.
  intros Hok Hin.
  assert (Hgate : CURRENT_USER_ID st ≠ "" ∧
                  role_in (get_user_role st (CURRENT_USER_ID st)) approver_roles = true).
  { unfold view_pending_expenses in Hok.
    destruct (require_role_cases approver_roles view_pending_expenses_body st)
      as [(_ & ? & ?)|[[Heq _]|(Heq & _ & _)]]; [done|by rewrite Heq in Hok..]. }
  destruct Hgate as [Hid Hg].
  destruct (view_pending_expenses_lists st c l Hok) as (u & Hu & Hl).
  apply Hl in Hin as [_ Hp].
  apply pending_for_sound in Hp as (Hc & Hf & Hlt & Hchk);
    [|unfold get_user_role; by rewrite Hu].
  split; [done|]. split; [eauto|]. split; [done|].
  intros id jc now He.
  destruct (lookup_lt_is_Some_2 _ _ Hlt) as [s Hs].
  unfold approve_expense, reject_expense. rewrite !require_role_pass by done.
  destruct (approve_body_authorized st id jc now e s He) as [m1 ->];
    [by rewrite Hchk|done|].
  destruct (reject_body_authorized st id jc now e s He) as [m2 ->];
    [by rewrite Hchk|done|].
  simpl. eauto.
Qed.

(** X11: the pending list misses no expense of the caller's company that
    the check lets the caller act on, provided the index points into the
    flow and the current step is not a Manager step at an index other
    than 0. *)
Theorem pending_list_is_complete_on_manager_first_flows st c l u id e :
  (view_pending_expenses st).1 = Ok c l →
  USERS st !! CURRENT_USER_ID st = Some u →
  EXPENSES st !! id = Some e →
  Expense.company_id e = User.company_id u →
  Expense.current_approver_index e < length (flow_of st e) →
  (∀ current_step,
     flow_of st e !! Expense.current_approver_index e = Some current_step →
     Step.role current_step = "Manager" → Expense.current_approver_index e = 0) →
  (check_can_approve st (CURRENT_USER_ID st) e).1 = true →
  e ∈ l.
Proof.
  intros Hok Hu He Hc Hlt Hm Hchk.
  destruct (view_pending_expenses_lists st c l Hok) as (u' & Hu' & Hl).
  assert (u' = u) as -> by congruence.
  apply Hl. split; [eauto|].
  by apply (pending_for_agrees st (CURRENT_USER_ID st) u e Hu Hlt Hm).
Qed.

(** X9: an expense whose submission was answered 201 is on the
    submitter's own list, and on the pending list of every Admin of the
    submitter's company. *)
Theorem submitted_expense_is_listed st data new_id c p :
  (submit_expense st data new_id).1 = Ok c p →
  let st' := (submit_expense st data new_id).2 in
  ∃ e,
    EXPENSES st' !! new_id = Some e ∧
    (∃ l, (view_my_expenses st').1 = Ok 200 l ∧ e ∈ l) ∧
    ∀ admin_id admin,
      admin_id ≠ "" → USERS st !! admin_id = Some admin → User.role admin = "Admin" →
      User.company_id admin = Expense.company_id e →
      ∃ l, (view_pending_expenses (set_CURRENT_USER_ID admin_id st')).1 = Ok 200 l ∧ e ∈ l.
Proof.
  intros Hok st'.
  assert (Hgate : CURRENT_USER_ID st ≠ "" ∧
                  role_in (get_user_role st (CURRENT_USER_ID st)) ["Employee"] = true).
  { destruct (submit_expense st data new_id) as [r s0] eqn:E. simpl in Hok. subst r.
    unfold submit_expense in E. by apply require_role_Ok_inv in E as (_ & ? & ?). }
  destruct Hgate as [Hid Hg].
  destruct (submit_expense_Ok_fst _ _ _ _ _ Hok)
    as (e & user & company & flow & first & Hu & Hc & Hh & H0 & Hcid & Huid & Hfl &
        Hi & _ & Hs & Hst).
  subst st'. rewrite Hst. exists e.
  assert (He : EXPENSES (set_EXPENSES (<[new_id := e]> (EXPENSES st)) st) !! new_id = Some e)
    by apply lookup_insert_eq.
  split; [done|]. split.
  - unfold view_my_expenses. rewrite require_role_pass; [|done|].
    + unfold view_my_expenses_body, get_current_user_id. simpl.
      eexists. split; [done|].
      rewrite list_elem_of_filter, list_elem_of_fmap. split; [done|].
      exists (new_id, e). split; [done|]. by apply elem_of_map_to_list.
    + change (role_in (get_user_role st (CURRENT_USER_ID st)) ["Employee"; "Manager"; "Admin"]
              = true).
      destruct (get_user_role st (CURRENT_USER_ID st)) as [r|]; [|done]. simpl in *.
      apply bool_decide_eq_true in Hg. apply bool_decide_eq_true.
      rewrite elem_of_cons, elem_of_nil in Hg. destruct Hg as [->|[]].
      rewrite elem_of_cons. by left.
  - intros admin_id admin Hne Ha Hrole Hcomp.
    unfold view_pending_expenses. rewrite require_role_pass; [|done|].
    + unfold view_pending_expenses_body, get_current_user_id, get_user_role. simpl.
      rewrite Ha. simpl. eexists. split; [done|].
      rewrite list_elem_of_filter, list_elem_of_fmap. split.
      * unfold pending_for, finalized, flow_of. simpl.
        rewrite Hs, Hcomp, Hi, Hfl, Hh, Hrole. simpl. rewrite H0.
        rewrite bool_decide_eq_false_2 by tauto. done.
      * exists (new_id, e). split; [done|]. by apply elem_of_map_to_list.
    + apply role_in_approver_roles. right; left.
      change (get_user_role st admin_id = Some "Admin").
      unfold get_user_role. rewrite Ha. simpl. by rewrite Hrole.
Qed.

End Listings.

(** ** Further properties: invariants and sessions *)

Section Sessions.
Context {F : Type} `{!PyPrims F}.

Implicit Types (st : State F) (e expense : Expense.t F).

(** *** What each handler may do to the state *)

Lemma get_auth_status_state st : (get_auth_status st).2 = st.
Proof.
  unfold get_auth_status. destruct (USERS st !! _); [|done].
  by destruct (COMPANIES st !! _).
Qed.

Lemma view_my_expenses_state st : (view_my_expenses st).2 = st.
Proof.
  unfold view_my_expenses.
  destruct (require_role_cases ["Employee"; "Manager"; "Admin"] view_my_expenses_body st)
    as [(-> & _ & _)|[[-> _]|(-> & _ & _)]]; done.
Qed.

Lemma view_pending_expenses_state st : (view_pending_expenses st).2 = st.
Proof.
  unfold view_pending_expenses.
  destruct (require_role_cases approver_roles view_pending_expenses_body st)
    as [(-> & _ & _)|[[-> _]|(-> & _ & _)]]; try done.
  unfold view_pending_expenses_body. by destruct (USERS st !! _).
Qed.

(** [submit_expense] either keeps the state or stores the expense built
    from the body; it raises only for a user without company (never for an
    admitted caller of a consistent state), for an amount or a currency
    the conversion cannot take, or for an empty template. *)
Lemma submit_expense_effect st data new_id :
  ((submit_expense st data new_id).2 = st ∧
   (http_status (submit_expense st data new_id).1 = 500 →
    (∃ user, USERS st !! CURRENT_USER_ID st = Some user ∧
             COMPANIES st !! User.company_id user = None) ∨
    conversion_raises data)) ∨
  (∃ user company amount currency category description date,
     USERS st !! CURRENT_USER_ID st = Some user ∧
     COMPANIES st !! User.company_id user = Some company ∧
     let e := submitted_expense st user company new_id amount currency category
                description date in
     (submit_expense st data new_id).2 =
       set_EXPENSES (<[new_id := e]> (EXPENSES st)) st ∧
     (http_status (submit_expense st data new_id).1 = 500 → flow_of st e !! 0 = None) ∧
     (http_status (submit_expense st data new_id).1 ≠ 500 →
      is_Some (flow_of st e !! 0))).
Proof.
  unfold submit_expense.
  destruct (require_role_cases ["Employee"] (submit_expense_body data new_id) st)
    as [(-> & Hid & Hr)|[[-> _]|(-> & _ & _)]]; [|by left..].
  destruct (submit_expense_body_cases st data new_id)
    as [[_ Hb]|[Hb|[(? & ? & ? & _ & _ & _ & _ & Hb)|[(Hcr & exn & Hb)|
        (user & company & a & amount & cur & cat & descr & dt &
         Hu & Hc & _ & _ & _ & _ & _ & _ & Hb)]]]].
  - left. by rewrite Hb.
  - left. rewrite Hb. split; [done|]. intros _. left.
    unfold get_user_role in Hr.
    destruct (USERS st !! CURRENT_USER_ID st) as [user|] eqn:Hu; [|done].
    exists user. split; [done|].
    revert Hb. unfold submit_expense_body, get_current_user_id.
    destruct (body_amount data) as [a|]; [|done].
    destruct (body_currency data) as [cur|]; [|done].
    destruct (body_category data); [|done].
    destruct (body_description data); [|done]. destruct (body_date data); [|done].
    rewrite Hu. destruct (COMPANIES st !! User.company_id user); [|done].
    destruct (float a) as [amount|exn] eqn:Ha.
    + destruct cur; try done. simpl. by destruct (flow_of _ _ !! 0).
    + destruct (decide (exn = "ValueError")); [done|]. intros [= ->].
      apply float_raises in Ha. destruct Ha as [?|[?|?]]; discriminate.
  - left. by rewrite Hb.
  - left. rewrite Hb. split; [done|]. intros _. by right.
  - right. exists user, company, amount, cur, cat, descr, dt.
    split; [done|]. split; [done|]. simpl in *.
    destruct (flow_of st _ !! 0) as [first|]; rewrite Hb; simpl;
      split_and!; done.
Qed.

(** The codes approve and reject answer with. *)
Lemma approve_expense_codes st id jc now :
  (∃ d, (approve_expense st id jc now).1 = Ok 200 d) ∨
  ((approve_expense st id jc now).2 = st ∧
   http_status (approve_expense st id jc now).1 ≠ 200 ∧
   (http_status (approve_expense st id jc now).1 = 500 →
    ∃ e, EXPENSES st !! id = Some e ∧ finalized e = false ∧
         length (flow_of st e) ≤ Expense.current_approver_index e ∧
         (check_can_approve st (CURRENT_USER_ID st) e).1 = true)).
Proof.
  unfold approve_expense.
  destruct (require_role_cases approver_roles (approve_expense_body id jc now) st)
    as [(-> & _ & _)|[[-> _]|(-> & _ & _)]]; [|by right..].
  destruct (EXPENSES st !! id) as [e|] eqn:He;
    [|unfold approve_expense_body; rewrite He; by right].
  destruct (check_can_approve st (CURRENT_USER_ID st) e) as [[] reason] eqn:Hc;
    [|unfold approve_expense_body, get_current_user_id; rewrite He, Hc; by right].
  destruct (flow_of st e !! Expense.current_approver_index e) as [s|] eqn:Hs.
  - destruct (approve_body_authorized st id jc now e s He) as [msg ->];
      [by rewrite Hc|done|]. left. eauto.
  - right. unfold approve_expense_body, get_current_user_id. rewrite He, Hc, Hs.
    simpl. split_and!; try done. intros _. exists e. split; [done|].
    split; [|split; [by apply lookup_ge_None|by rewrite Hc]].
    destruct (finalized e) eqn:Hf; [|done].
    by rewrite (check_can_approve_finalized _ _ _ Hf) in Hc.
Qed.

Lemma reject_expense_codes st id jc now :
  (∃ d, (reject_expense st id jc now).1 = Ok 200 d) ∨
  ((reject_expense st id jc now).2 = st ∧
   http_status (reject_expense st id jc now).1 ≠ 200 ∧
   (http_status (reject_expense st id jc now).1 = 500 →
    ∃ e, EXPENSES st !! id = Some e ∧ finalized e = false ∧
         length (flow_of st e) ≤ Expense.current_approver_index e ∧
         (check_can_approve st (CURRENT_USER_ID st) e).1 = true)).
Proof.
  unfold reject_expense.
  destruct (require_role_cases approver_roles (reject_expense_body id jc now) st)
    as [(-> & _ & _)|[[-> _]|(-> & _ & _)]]; [|by right..].
  destruct (EXPENSES st !! id) as [e|] eqn:He;
    [|unfold reject_expense_body; rewrite He; by right].
  destruct (check_can_approve st (CURRENT_USER_ID st) e) as [[] reason] eqn:Hc;
    [|unfold reject_expense_body, get_current_user_id; rewrite He, Hc; by right].
  destruct (flow_of st e !! Expense.current_approver_index e) as [s|] eqn:Hs.
  - destruct (reject_body_authorized st id jc now e s He) as [msg ->];
      [by rewrite Hc|done|]. left. eauto.
  - right. unfold reject_expense_body, get_current_user_id. rewrite He, Hc, Hs.
    simpl. split_and!; try done. intros _. exists e. split; [done|].
    split; [|split; [by apply lookup_ge_None|by rewrite Hc]].
    destruct (finalized e) eqn:Hf; [|done].
    by rewrite (check_can_approve_finalized _ _ _ Hf) in Hc.
Qed.

(** A decision answered 200 was taken on a pending expense whose index
    points at a step. *)
Lemma approve_expense_200 st id jc now d :
  (approve_expense st id jc now).1 = Ok 200 d →
  ∃ e current_step,
    EXPENSES st !! id = Some e ∧ finalized e = false ∧
    flow_of st e !! Expense.current_approver_index e = Some current_step ∧
    (approve_expense st id jc now).2 =
      set_EXPENSES
        (<[id := advance (flow_of st e)
                   (Expense.append_history
                      (decision_entry st "Approved" current_step "Approved." jc now) e)]>
           (EXPENSES st)) st.
Proof.
  intros Hok.
  destruct (approve_expense_Ok_fst _ _ _ _ _ _ Hok) as (e & s & He & Hs & Hst).
  exists e, s. split_and!; try done.
  destruct (finalized e) eqn:Hf; [|done].
  unfold approve_expense in Hok.
  destruct (require_role_cases approver_roles (approve_expense_body id jc now) st)
    as [(Heq & _ & _)|[[Heq _]|(Heq & _ & _)]]; rewrite Heq in Hok; try done.
  by rewrite (approve_body_finalized st id jc now e He Hf) in Hok.
Qed.

Lemma reject_expense_200 st id jc now d :
  (reject_expense st id jc now).1 = Ok 200 d →
  ∃ e current_step,
    EXPENSES st !! id = Some e ∧ finalized e = false ∧
    flow_of st e !! Expense.current_approver_index e = Some current_step ∧
    (reject_expense st id jc now).2 =
      set_EXPENSES
        (<[id := Expense.append_history
                   (decision_entry st "Rejected" current_step "Rejected." jc now)
                   (Expense.set_status "Rejected" e)]>
           (EXPENSES st)) st.
Proof.
  intros Hok.
  destruct (reject_expense_Ok_fst _ _ _ _ _ _ Hok) as (e & s & He & Hs & Hst).
  exists e, s. split_and!; try done.
  destruct (finalized e) eqn:Hf; [|done].
  unfold reject_expense in Hok.
  destruct (require_role_cases approver_roles (reject_expense_body id jc now) st)
    as [(Heq & _ & _)|[[Heq _]|(Heq & _ & _)]]; rewrite Heq in Hok; try done.
  by rewrite (reject_body_finalized st id jc now e He Hf) in Hok.
Qed.

(** The status text of a step is neither "Approved" nor "Rejected". *)
Lemma pending_status_not_finalized e (label : string) :
  finalized (Expense.set_status ("Pending (" +:+ label +:+ ")") e) = false.
Proof.
  unfold finalized. apply bool_decide_eq_false. simpl.
  rewrite !elem_of_cons, elem_of_nil. intros [H|[H|[]]]; discriminate H.
Qed.

Lemma advance_finalized flow e :
  finalized (advance flow e) =
  if decide (Expense.current_approver_index e + 1 < length flow) then false else true.
Proof.
  unfold advance. destruct (flow !! _) as [s|] eqn:Hs.
  - apply lookup_lt_Some in Hs. rewrite decide_True by done.
    apply pending_status_not_finalized.
  - apply lookup_ge_None in Hs. rewrite decide_False by lia. done.
Qed.

Lemma create_user_status st data new_user_id :
  http_status (create_user st data new_user_id).1 ≠ 500.
Proof.
  unfold create_user.
  destruct (require_role_cases ["Admin"] (create_user_body data new_user_id) st)
    as [(-> & _ & Hr)|[[-> _]|(-> & _ & _)]]; [|done..].
  unfold create_user_body, get_current_user_id.
  destruct (body_name data); [|done]. destruct (body_role data); [|done].
  destruct (body_manager_id data); [|done]. destruct (bool_decide _); [|done].
  unfold get_user_role in Hr. by destruct (USERS st !! CURRENT_USER_ID st).
Qed.

Lemma view_my_expenses_status st : http_status (view_my_expenses st).1 ≠ 500.
Proof.
  unfold view_my_expenses.
  destruct (require_role_cases ["Employee"; "Manager"; "Admin"] view_my_expenses_body st)
    as [(-> & _ & _)|[[-> _]|(-> & _ & _)]]; done.
Qed.

Lemma view_pending_expenses_status st : http_status (view_pending_expenses st).1 ≠ 500.
Proof.
  unfold view_pending_expenses.
  destruct (require_role_cases approver_roles view_pending_expenses_body st)
    as [(-> & _ & Hr)|[[-> _]|(-> & _ & _)]]; [|done..].
  unfold view_pending_expenses_body, get_current_user_id.
  unfold get_user_role in Hr. by destruct (USERS st !! CURRENT_USER_ID st).
Qed.

(** What a request does to the state: nothing, or one of four updates. In
    the first case the request is no decision answered 200. *)
Lemma dispatch_effect st req :
  ((dispatch st req).2 = st ∧ ∀ id, decides id req (dispatch st req).1 = false) ∨
  (∃ data new_user_id admin name role manager_json,
     req = CreateUser data new_user_id ∧
     USERS st !! CURRENT_USER_ID st = Some admin ∧
     (dispatch st req).2 =
       set_USERS (<[new_user_id := created_user admin new_user_id name role manager_json]>
                    (USERS st)) st) ∨
  (∃ data new_id user company amount currency category description date,
     req = SubmitExpense data new_id ∧
     USERS st !! CURRENT_USER_ID st = Some user ∧
     COMPANIES st !! User.company_id user = Some company ∧
     let e := submitted_expense st user company new_id amount currency category
                description date in
     (dispatch st req).2 = set_EXPENSES (<[new_id := e]> (EXPENSES st)) st ∧
     ((dispatch st req).1 = 500 → flow_of st e !! 0 = None) ∧
     ((dispatch st req).1 ≠ 500 → is_Some (flow_of st e !! 0))) ∨
  (∃ id jc now e current_step,
     req = ApproveExpense id jc now ∧ (dispatch st req).1 = 200 ∧
     EXPENSES st !! id = Some e ∧ finalized e = false ∧
     flow_of st e !! Expense.current_approver_index e = Some current_step ∧
     (dispatch st req).2 =
       set_EXPENSES
         (<[id := advance (flow_of st e)
                    (Expense.append_history
                       (decision_entry st "Approved" current_step "Approved." jc now) e)]>
            (EXPENSES st)) st) ∨
  (∃ id jc now e current_step,
     req = RejectExpense id jc now ∧ (dispatch st req).1 = 200 ∧
     EXPENSES st !! id = Some e ∧ finalized e = false ∧
     flow_of st e !! Expense.current_approver_index e = Some current_step ∧
     (dispatch st req).2 =
       set_EXPENSES
         (<[id := Expense.append_history
                    (decision_entry st "Rejected" current_step "Rejected." jc now)
                    (Expense.set_status "Rejected" e)]>
            (EXPENSES st)) st).
Proof.
  destruct req as [|data nid|data nid| | |id jc now|id jc now]; simpl.
  - left. split; [apply get_auth_status_state|done].
  - destruct (create_user_effect st data nid)
      as [Hs|(admin & name & role & m & Hu & _ & Hs)].
    + left. by split.
    + right; left. exists data, nid, admin, name, role, m. done.
  - destruct (submit_expense_effect st data nid)
      as [[Hs _]|(user & company & amount & cur & cat & descr & dt & Hu & Hc & Hs & H5 & Hn5)].
    + left. by split.
    + right; right; left. exists data, nid, user, company, amount, cur, cat, descr, dt.
      done.
  - left. split; [apply view_my_expenses_state|done].
  - left. split; [apply view_pending_expenses_state|done].
  - destruct (approve_expense_codes st id jc now) as [[d Hok]|(Hs & Hn & _)].
    + destruct (approve_expense_200 _ _ _ _ _ Hok) as (e & s & He & Hf & Hfl & Hst).
      right; right; right; left. exists id, jc, now, e, s. rewrite Hok. done.
    + left. split; [done|]. intros id'. apply bool_decide_eq_false. tauto.
  - destruct (reject_expense_codes st id jc now) as [[d Hok]|(Hs & Hn & _)].
    + destruct (reject_expense_200 _ _ _ _ _ Hok) as (e & s & He & Hf & Hfl & Hst).
      right; right; right; right. exists id, jc, now, e, s. rewrite Hok. done.
    + left. split; [done|]. intros id'. apply bool_decide_eq_false. tauto.
Qed.

(** X12: the four ways a request is answered 500: the caller's company
    is not in [COMPANIES]; the template of the caller's company has no
    first step (the expense is then already stored); the caller passes the
    check on a pending expense whose index is outside its flow; or a
    submission carries an amount on which [float] raises something other
    than [ValueError], or a currency that is not a string. The first three
    are the failed look-ups of the handlers. *)
Theorem dispatch_raises_only_on_broken_stores st req :
  (dispatch st req).1 = 500 →
  (∃ user, USERS st !! CURRENT_USER_ID st = Some user ∧
           COMPANIES st !! User.company_id user = None) ∨
  (∃ user company,
     USERS st !! CURRENT_USER_ID st = Some user ∧
     COMPANIES st !! User.company_id user = Some company ∧
     default [] (heap st !! Company.approval_config company) !! 0 = None ∧
     ∃ new_id, is_Some (EXPENSES (dispatch st req).2 !! new_id) ∧
               submits new_id req) ∨
  (∃ id e, EXPENSES st !! id = Some e ∧ finalized e = false ∧
           length (flow_of st e) ≤ Expense.current_approver_index e ∧
           (check_can_approve st (CURRENT_USER_ID st) e).1 = true) ∨
  (∃ data new_id, req = SubmitExpense data new_id ∧ conversion_raises data).
Proof.
  destruct req as [|data nid|data nid| | |id jc now|id jc now]; simpl.
  - unfold get_auth_status, get_current_user_id.
    destruct (USERS st !! CURRENT_USER_ID st) as [u|]; [|done].
    destruct (COMPANIES st !! User.company_id u) eqn:Hc; [done|].
    intros _. left. eauto.
  - intros H. by destruct (create_user_status st data nid).
  - destruct (submit_expense_effect st data nid)
      as [[Hs H5]|(user & company & amount & cur & cat & descr & dt & Hu & Hc & Hs & H5 & _)].
    + intros H. destruct (H5 H) as [?|?]; [by left|]. right; right; right. eauto.
    + intros H. right; left. exists user, company. split_and!; try done.
      * by apply H5.
      * exists nid. split; [|done]. simpl in Hs. rewrite Hs. simpl.
        rewrite lookup_insert_eq. eauto.
  - intros H. by destruct (view_my_expenses_status st).
  - intros H. by destruct (view_pending_expenses_status st).
  - intros H. right; right; left.
    destruct (approve_expense_codes st id jc now) as [[d Hok]|(_ & _ & H5)];
      [by rewrite Hok in H|].
    destruct (H5 H) as (e & ? & ? & ? & ?). eauto 6.
  - intros H. right; right; left.
    destruct (reject_expense_codes st id jc now) as [[d Hok]|(_ & _ & H5)];
      [by rewrite Hok in H|].
    destruct (H5 H) as (e & ? & ? & ? & ?). eauto 6.
Qed.

(** *** Consistent stores *)

Lemma flow_of_insert_lookup (flow : list Step.t) i :
  is_Some (flow !! i) → i < length flow.
Proof. intros [s Hs]. by apply lookup_lt_Some in Hs. Qed.

Lemma dispatch_keeps_consistency st req :
  stores_consistent st →
  stores_consistent (dispatch st req).2 ∧
  ((dispatch st req).1 = 500 →
   ∃ data new_id, req = SubmitExpense data new_id ∧ conversion_raises data).
Proof.
  intros (Hu & Ht & Hp). split.
  - destruct (dispatch_effect st req)
      as [[-> _]|[(data & nid & admin & name & role & m & -> & Ha & Hst)|
          [(data & nid & user & company & amount & cur & cat & descr & dt & -> & Hus & Hc &
            Hst & _ & _)|
           [(id & jc & now & e & s & -> & _ & He & Hf & Hs & Hst)|
            (id & jc & now & e & s & -> & _ & He & Hf & Hs & Hst)]]]].
    + done.
    + rewrite Hst. split_and!; [|done..].
      intros k u. simpl. destruct (decide (nid = k)) as [->|Hne].
      * rewrite lookup_insert_eq. intros [= <-]. simpl. eauto.
      * rewrite lookup_insert_ne by done. apply Hu.
    + rewrite Hst. split_and!; [done..|].
      intros k e. simpl. destruct (decide (nid = k)) as [->|Hne].
      * rewrite lookup_insert_eq. intros [= <-] _.
        destruct (Ht _ _ Hc) as (flow & first & Hh & H0).
        unfold flow_of. simpl. rewrite Hh. simpl. by apply lookup_lt_Some in H0.
      * rewrite lookup_insert_ne by done. apply Hp.
    + rewrite Hst. split_and!; [done..|].
      intros k e'. simpl. destruct (decide (id = k)) as [->|Hne].
      * rewrite lookup_insert_eq. intros [= <-].
        rewrite advance_finalized, advance_index. unfold flow_of. simpl.
        fold (flow_of st e). rewrite advance_approval_flow. simpl.
        fold (flow_of st e).
        destruct (decide (Expense.current_approver_index e + 1 < length (flow_of st e)));
          done.
      * rewrite lookup_insert_ne by done. apply Hp.
    + rewrite Hst. split_and!; [done..|].
      intros k e'. simpl. destruct (decide (id = k)) as [->|Hne].
      * rewrite lookup_insert_eq. intros [= <-]. done.
      * rewrite lookup_insert_ne by done. apply Hp.
  - intros H.
    destruct (dispatch_raises_only_on_broken_stores st req H)
      as [(user & Hus & Hc)|[(user & company & Hus & Hc & Hfl & _)|
          [(id & e & He & Hf & Hlen & _)|Hconv]]].
    + destruct (Hu _ _ Hus) as [c Hc']. congruence.
    + destruct (Ht _ _ Hc) as (flow & first & Hh & H0). rewrite Hh in Hfl.
      simpl in Hfl. congruence.
    + specialize (Hp _ _ He Hf). lia.
    + done.
Qed.


(** *** The shape of expenses *)

Lemma dispatch_keeps_shape st req :
  (∀ k e, EXPENSES st !! k = Some e → expense_shape st e) →
  ∀ k e, EXPENSES (dispatch st req).2 !! k = Some e →
         expense_shape (dispatch st req).2 e.
Proof.
  intros Hsh.
  destruct (dispatch_effect st req)
    as [[-> _]|[(data & nid & admin & name & role & m & -> & Ha & Hst)|
        [(data & nid & user & company & amount & cur & cat & descr & dt & -> & Hus & Hc &
          Hst & _ & _)|
         [(id & jc & now & e & s & -> & _ & He & Hf & Hs & Hst)|
          (id & jc & now & e & s & -> & _ & He & Hf & Hs & Hst)]]]].
  - done.
  - rewrite Hst. exact Hsh.
  - rewrite Hst. intros k e. simpl.
    destruct (decide (nid = k)) as [->|Hne].
    + rewrite lookup_insert_eq. intros [= <-]. split; [done|]. intros _. by left.
    + rewrite lookup_insert_ne by done. apply Hsh.
  - rewrite Hst. intros k e'. simpl. destruct (decide (id = k)) as [->|Hne].
    + rewrite lookup_insert_eq. intros [= <-].
      destruct (Hsh _ _ He) as [Hlen _]. rewrite Hf, Nat.add_0_r in Hlen.
      set (e1 := Expense.append_history _ e).
      assert (Hi1 : Expense.current_approver_index e1 = Expense.current_approver_index e)
        by done.
      assert (Hh1 : length (Expense.history e1) = S (Expense.current_approver_index e)).
      { subst e1. simpl. rewrite length_app, Hlen. simpl. lia. }
      split.
      * rewrite advance_history, advance_finalized, advance_index, Hh1, Hi1.
        case_decide; lia.
      * rewrite advance_finalized, advance_index, Hi1.
        case_decide as Hlt; [|done]. intros _. right. split; [lia|].
        destruct (lookup_lt_is_Some_2 _ _ Hlt) as [next Hn]. exists next. split.
        -- rewrite <- Hn. unfold flow_of. simpl. by rewrite advance_approval_flow.
        -- apply advance_status_next. by rewrite Hi1.
    + rewrite lookup_insert_ne by done. apply Hsh.
  - rewrite Hst. intros k e'. simpl. destruct (decide (id = k)) as [->|Hne].
    + rewrite lookup_insert_eq. intros [= <-].
      destruct (Hsh _ _ He) as [Hlen _]. rewrite Hf, Nat.add_0_r in Hlen.
      split; [|done]. simpl. rewrite length_app, Hlen. simpl.
      change (finalized _) with true. lia.
    + rewrite lookup_insert_ne by done. apply Hsh.
Qed.

(** X14: the shape of expenses is kept by every request of every caller,
    and a submission stores an expense of that shape: the history has one
    entry per passed step, plus the final decision once the expense is
    approved or rejected; a pending expense beyond index 0 carries the
    status "Pending (<label of the step at its index>)", and at index 0
    the status written at submission. *)
Theorem expense_shape_is_kept st reqs :
  (∀ k e, EXPENSES st !! k = Some e → expense_shape st e) →
  ∀ k e, EXPENSES (serve st reqs).2 !! k = Some e → expense_shape (serve st reqs).2 e.
Proof.
  revert st. induction reqs as [|[caller req] rest IH]; intros st Hst; simpl.
  - done.
  - assert (Hac : ∀ k e, EXPENSES (acting_as caller st) !! k = Some e →
                         expense_shape (acting_as caller st) e) by exact Hst.
    pose proof (dispatch_keeps_shape _ req Hac) as H1.
    destruct (dispatch (acting_as caller st) req) as [code st1]. simpl in *.
    specialize (IH st1 H1).
    destruct (serve st1 rest) as [codes st2]. simpl in *. exact IH.
Qed.

(** *** Decisions along a session *)

Lemma steps_left_after_approval st st' e (entry : Entry.t) :
  heap st' = heap st → finalized e = false →
  Expense.current_approver_index e < length (flow_of st e) →
  1 + steps_left st' (advance (flow_of st e) (Expense.append_history entry e)) ≤
    steps_left st e.
Proof.
  intros Hh Hf Hlt.
  assert (Hfl : flow_of st' (advance (flow_of st e) (Expense.append_history entry e)) =
                flow_of st e).
  { unfold flow_of. by rewrite advance_approval_flow, Hh. }
  unfold steps_left. rewrite Hfl, advance_finalized, advance_index, Hf.
  change (Expense.current_approver_index (Expense.append_history entry e))
    with (Expense.current_approver_index e).
  case_decide; lia.
Qed.

(** One request, seen from an expense it does not overwrite: the steps
    left shrink by at least one when the request is a decision on that
    expense answered 200, and never grow; a finalized expense stays as it
    is. *)
Lemma dispatch_measure st req id e :
  EXPENSES st !! id = Some e → ¬ submits id req →
  ∃ e1, EXPENSES (dispatch st req).2 !! id = Some e1 ∧
        (if decides id req (dispatch st req).1 then 1 else 0) +
          steps_left (dispatch st req).2 e1 ≤ steps_left st e ∧
        (finalized e = true → e1 = e).
Proof.
  intros He Hns.
  destruct (dispatch_effect st req)
    as [[Hsame Hd]|[(data & nid & admin & name & role & m & -> & Ha & Hst)|
        [(data & nid & user & company & amount & cur & cat & descr & dt & -> & Hus & Hc &
          Hst & _ & _)|
         [(id' & jc & now & e0 & s & -> & Hcode & He0 & Hf & Hs & Hst)|
          (id' & jc & now & e0 & s & -> & Hcode & He0 & Hf & Hs & Hst)]]]].
  - rewrite Hsame, Hd. exists e. split; [done|]. split; [change (0 + steps_left st e ≤ steps_left st e); lia|done].
  - rewrite Hst. exists e. split; [done|]. split; [change (0 + steps_left st e ≤ steps_left st e); lia|done].
  - rewrite Hst. exists e. simpl in Hns. simpl.
    rewrite lookup_insert_ne by done. split; [done|].
    split; [change (0 + steps_left st e ≤ steps_left st e); lia|done].
  - rewrite Hst, Hcode. simpl. destruct (decide (id' = id)) as [->|Hne].
    + assert (e0 = e) as -> by congruence.
      rewrite lookup_insert_eq. eexists. split; [done|].
      rewrite bool_decide_eq_true_2 by done.
      apply lookup_lt_Some in Hs.
      split; [|by rewrite Hf].
      by apply steps_left_after_approval.
    + rewrite lookup_insert_ne by done. exists e. split; [done|].
      rewrite bool_decide_eq_false_2 by tauto.
      split; [change (0 + steps_left st e ≤ steps_left st e); lia|done].
  - rewrite Hst, Hcode. simpl. destruct (decide (id' = id)) as [->|Hne].
    + assert (e0 = e) as -> by congruence.
      rewrite lookup_insert_eq. eexists. split; [done|].
      rewrite bool_decide_eq_true_2 by done.
      apply lookup_lt_Some in Hs.
      split; [|by rewrite Hf].
      unfold steps_left. rewrite Hf.
      change (1 + 0 ≤ length (flow_of st e) - Expense.current_approver_index e).
      lia.
    + rewrite lookup_insert_ne by done. exists e. split; [done|].
      rewrite bool_decide_eq_false_2 by tauto.
      split; [change (0 + steps_left st e ≤ steps_left st e); lia|done].
Qed.

(** X15: however the requests of a session are mixed and whoever makes
    them, the decisions on one expense that are answered 200 are at most
    as many as the steps the expense has left (none once it is finalized),
    as long as no submission reuses its identifier. *)
Theorem decisions_are_bounded_by_steps_left st id e reqs :
  EXPENSES st !! id = Some e →
  (∀ caller req, (caller, req) ∈ reqs → ¬ submits id req) →
  decisions_made st id reqs ≤ steps_left st e.
Proof.
  revert st e. induction reqs as [|[caller req] rest IH]; intros st e He Hns; simpl.
  - lia.
  - assert (Hnow : ¬ submits id req) by (eapply Hns; apply elem_of_cons; by left).
    destruct (dispatch_measure (acting_as caller st) req id e He Hnow)
      as (e1 & He1 & Hle & _).
    destruct (dispatch (acting_as caller st) req) as [code st1]. simpl in *.
    assert (Hrest : decisions_made st1 id rest ≤ steps_left st1 e1).
    { apply IH; [done|]. intros c r Hin. eapply Hns. apply elem_of_cons. by right. }
    change (steps_left (acting_as caller st) e) with (steps_left st e) in Hle. lia.
Qed.

(** X16: an expense that is Approved or Rejected comes out of every
    session exactly as it went in, whatever the requests and whoever makes
    them, as long as no submission reuses its identifier. *)
Theorem finalized_expense_survives_every_session st id e reqs :
  EXPENSES st !! id = Some e → finalized e = true →
  (∀ caller req, (caller, req) ∈ reqs → ¬ submits id req) →
  EXPENSES (serve st reqs).2 !! id = Some e.
Proof.
  revert st. induction reqs as [|[caller req] rest IH]; intros st He Hf Hns; simpl.
  - done.
  - assert (Hnow : ¬ submits id req) by (eapply Hns; apply elem_of_cons; by left).
    destruct (dispatch_measure (acting_as caller st) req id e He Hnow)
      as (e1 & He1 & _ & Hsame).
    rewrite (Hsame Hf) in He1.
    destruct (dispatch (acting_as caller st) req) as [code st1]. simpl in *.
    assert (Hrest : EXPENSES (serve st1 rest).2 !! id = Some e).
    { apply IH; [done..|]. intros c r Hin. eapply Hns. apply elem_of_cons. by right. }
    by destruct (serve st1 rest).
Qed.

(** *** The caller the bootstrap leaves in place *)

Lemma require_role_refuses {A} roles (f : State F → Response A * State F) st :
  CURRENT_USER_ID st ≠ "" →
  role_in (get_user_role st (CURRENT_USER_ID st)) roles = false →
  require_role roles f st =
    (Error 403 (Some ("Access denied. Required roles: " +:+ String.concat ", " roles)), st).
Proof.
  intros Hid Hr. unfold require_role, get_current_user_id.
  rewrite decide_False by done. by rewrite Hr.
Qed.

(** One request of an Employee. *)
Lemma dispatch_as_employee st req :
  CURRENT_USER_ID st ≠ "" →
  get_user_role st (CURRENT_USER_ID st) = Some "Employee" →
  USERS (dispatch st req).2 = USERS st ∧
  CURRENT_USER_ID (dispatch st req).2 = CURRENT_USER_ID st ∧
  (closed_to_employees req = true → dispatch st req = (403, st)) ∧
  (∀ k e, EXPENSES (dispatch st req).2 !! k = Some e →
     EXPENSES st !! k = Some e ∨
     (Expense.current_approver_index e = 0 ∧ Expense.history e = [] ∧
      Expense.status e = "Pending (Manager Approval)")).
Proof.
  intros Hid Hr.
  assert (Hadm : role_in (get_user_role st (CURRENT_USER_ID st)) ["Admin"] = false)
    by (by rewrite Hr).
  assert (Happ : role_in (get_user_role st (CURRENT_USER_ID st)) approver_roles = false)
    by (by rewrite Hr).
  destruct req as [|data nid|data nid| | |id jc now|id jc now]; simpl.
  - rewrite get_auth_status_state. split_and!; try done. auto.
  - unfold create_user. rewrite require_role_refuses by done. simpl.
    split_and!; try done. auto.
  - destruct (submit_expense_effect st data nid)
      as [[-> _]|(user & company & amount & cur & cat & descr & dt & _ & _ & -> & _ & _)].
    + split_and!; try done. auto.
    + simpl. split_and!; try done. intros k e.
      destruct (decide (nid = k)) as [->|Hne].
      * rewrite lookup_insert_eq. intros [= <-]. by right.
      * rewrite lookup_insert_ne by done. auto.
  - rewrite view_my_expenses_state. split_and!; try done. auto.
  - unfold view_pending_expenses. rewrite require_role_refuses by done. simpl.
    split_and!; try done. auto.
  - unfold approve_expense. rewrite require_role_refuses by done. simpl.
    split_and!; try done. auto.
  - unfold reject_expense. rewrite require_role_refuses by done. simpl.
    split_and!; try done. auto.
Qed.

(** X17: when the caller kept in [CURRENT_USER_ID] is an Employee, as it
    is after the bootstrap, no session changes that: the caller and the
    user table stay as they are, every request to the admin route, the
    pending list, approve or reject is answered 403, and every expense is
    either as it was or a fresh submission at index 0 with an empty
    history. *)
Theorem employee_session_never_decides st reqs :
  CURRENT_USER_ID st ≠ "" →
  get_user_role st (CURRENT_USER_ID st) = Some "Employee" →
  USERS (run st reqs).2 = USERS st ∧
  CURRENT_USER_ID (run st reqs).2 = CURRENT_USER_ID st ∧
  (∀ i req, reqs !! i = Some req → closed_to_employees req = true →
            (run st reqs).1 !! i = Some 403) ∧
  (∀ k e, EXPENSES (run st reqs).2 !! k = Some e →
     EXPENSES st !! k = Some e ∨
     (Expense.current_approver_index e = 0 ∧ Expense.history e = [] ∧
      Expense.status e = "Pending (Manager Approval)")).
Proof.
  revert st. induction reqs as [|req rest IH]; intros st Hid Hr; simpl.
  - split_and!; try done. auto.
  - destruct (dispatch_as_employee st req Hid Hr) as (Hu & Hc & H403 & He).
    destruct (dispatch st req) as [code st1] eqn:Hd. simpl in *.
    assert (Hid1 : CURRENT_USER_ID st1 ≠ "") by (by rewrite Hc).
    assert (Hr1 : get_user_role st1 (CURRENT_USER_ID st1) = Some "Employee")
      by (unfold get_user_role in *; by rewrite Hc, Hu).
    destruct (IH st1 Hid1 Hr1) as (Hu2 & Hc2 & H4032 & He2).
    destruct (run st1 rest) as [codes st2]. simpl in *.
    split_and!; try congruence.
    + intros [|i] r Hl Hcl; simpl in *.
      * injection Hl as <-. by injection (H403 Hcl) as ->.
      * by apply (H4032 i r).
    + intros k e Hk. destruct (He2 k e Hk) as [Hk1|?]; [|by right]. by apply He.
Qed.

(** *** An Admin walks an expense through its flow *)

(** X20: an Admin who approves a pending expense once for each step it
    has left is answered 200 every time and leaves it Approved, with the
    index at the last step; the history then lists, after the entries it
    had, the labels of the steps from its index to the end of the flow, in
    flow order. *)
Theorem admin_completes_the_flow st id e (args : list (option Json * string)) :
  CURRENT_USER_ID st ≠ "" →
  get_user_role st (CURRENT_USER_ID st) = Some "Admin" →
  EXPENSES st !! id = Some e → finalized e = false →
  Expense.current_approver_index e + length args = length (flow_of st e) →
  0 < length args →
  let r := run st ((λ a, ApproveExpense id a.1 a.2) <$> args) in
  r.1 = replicate (length args) 200 ∧
  ∃ e', EXPENSES r.2 !! id = Some e' ∧
        Expense.status e' = "Approved" ∧
        Expense.current_approver_index e' + 1 = length (flow_of st e) ∧
        Entry.step <$> Expense.history e' =
          (Entry.step <$> Expense.history e) ++
          (Step.step_name <$> drop (Expense.current_approver_index e) (flow_of st e)).
Proof.
  revert st e. induction args as [|[jc now] rest IH]; intros st e Hid Hr He Hf Hlen Hpos;
    simpl in *; [lia|].
  assert (Hlt : Expense.current_approver_index e < length (flow_of st e)) by lia.
  destruct (lookup_lt_is_Some_2 _ _ Hlt) as [s Hs].
  assert (Hchk : (check_can_approve st (CURRENT_USER_ID st) e).1 = true).
  { unfold check_can_approve. rewrite Hf, Hr. by rewrite decide_True. }
  assert (Hg : role_in (get_user_role st (CURRENT_USER_ID st)) approver_roles = true)
    by (apply role_in_approver_roles; auto).
  destruct (approve_body_authorized st id jc now e s He Hchk Hs) as [msg Hb].
  unfold approve_expense. rewrite require_role_pass by done. rewrite Hb. simpl.
  set (e0 := Expense.append_history _ e).
  assert (Hi0 : Expense.current_approver_index e0 = Expense.current_approver_index e)
    by done.
  assert (Hh0 : Entry.step <$> Expense.history e0 =
                (Entry.step <$> Expense.history e) ++ [Step.step_name s]).
  { subst e0. simpl. by rewrite fmap_app. }
  set (e1 := advance (flow_of st e) e0).
  set (st1 := set_EXPENSES _ st).
  assert (He1 : EXPENSES st1 !! id = Some e1) by apply lookup_insert_eq.
  assert (Hfl1 : flow_of st1 e1 = flow_of st e).
  { unfold flow_of. subst e1 st1. simpl. by rewrite advance_approval_flow. }
  assert (Hh1 : Entry.step <$> Expense.history e1 =
                (Entry.step <$> Expense.history e) ++ [Step.step_name s]).
  { subst e1. by rewrite advance_history. }
  assert (Hdrop : drop (Expense.current_approver_index e) (flow_of st e) =
                  s :: drop (S (Expense.current_approver_index e)) (flow_of st e))
    by (by apply drop_S).
  destruct rest as [|a rest'].
  - simpl. split; [done|]. exists e1. split; [done|].
    simpl in Hlen. split; [|split].
    + subst e1. apply advance_status_last. rewrite Hi0. lia.
    + subst e1. rewrite advance_index, Hi0. rewrite decide_False by lia. lia.
    + rewrite Hh1, Hdrop. rewrite drop_ge by lia. done.
  - simpl in Hlen.
    assert (Hi1 : Expense.current_approver_index e1 = Expense.current_approver_index e + 1).
    { subst e1. rewrite advance_index, Hi0. rewrite decide_True by lia. done. }
    assert (Hf1 : finalized e1 = false).
    { subst e1. rewrite advance_finalized, Hi0. rewrite decide_True by lia. done. }
    destruct (IH st1 e1) as (Hcodes & e' & He' & Hst' & Hi' & Hh'); try done.
    + rewrite Hfl1, Hi1. simpl. lia.
    + simpl. lia.
    + destruct (run st1 _) as [codes st2]. simpl in *.
      split; [by rewrite Hcodes|]. exists e'. split; [done|]. split; [done|].
      rewrite Hfl1 in Hi', Hh'. split; [done|].
      rewrite Hh', Hh1, Hi1, Hdrop, <- app_assoc. simpl.
      by rewrite Nat.add_1_r.
Qed.

(** The state after the module-level assignments is consistent. *)
Lemma module_state_consistent : stores_consistent (@module_state F).
Proof.
  split_and!.
  - intros k u H. simpl in H. by rewrite lookup_empty in H.
  - intros k c H. simpl in H. by rewrite lookup_empty in H.
  - intros k e H. simpl in H. by rewrite lookup_empty in H.
Qed.

(** *** The answers of the check *)

(** X21: the answers of [check_can_approve]. A positive answer carries no
    reason and a negative one always carries one of three; the finalized
    reason is given exactly for finalized expenses; the assigned-manager
    reason only to a Manager at index 0 who is not the owner's recorded
    manager; and a user who is not in [USERS] is never let through. *)
Theorem check_can_approve_answers st user_id e :
  (∀ reason, check_can_approve st user_id e = (true, reason) → reason = None) ∧
  (∀ reason, check_can_approve st user_id e = (false, reason) →
     reason = Some finalized_reason ∨ reason = Some not_manager_reason ∨
     reason = Some wrong_role_reason) ∧
  (check_can_approve st user_id e = (false, Some finalized_reason) ↔
     finalized e = true) ∧
  (check_can_approve st user_id e = (false, Some not_manager_reason) →
     finalized e = false ∧ get_user_role st user_id = Some "Manager" ∧
     Expense.current_approver_index e = 0 ∧
     USERS st !! Expense.user_id e ≫= User.manager_id ≠ Some user_id) ∧
  (USERS st !! user_id = None → (check_can_approve st user_id e).1 = false).
Proof.
  unfold check_can_approve, get_user_role, is_manager_of.
  destruct (finalized e) eqn:Hf.
  { split_and!; try done; intros; simplify_eq; auto. }
  destruct (USERS st !! user_id) as [u|] eqn:Hu; simpl.
  - destruct (decide (Some (User.role u) = Some "Admin")) as [Ha|Ha].
    { split_and!; try done; intros; simplify_eq; done. }
    destruct (flow_of st e !! Expense.current_approver_index e) as [s|] eqn:Hs;
      [|split_and!; try done; intros; simplify_eq; auto].
    destruct (decide (Some (User.role u) = Some (Step.role s))) as [Hr|Hr];
      [|split_and!; try done; intros; simplify_eq; auto].
    destruct (decide (Expense.current_approver_index e = 0 ∧ Step.role s = "Manager"))
      as [[H0 Hm]|Hn]; [|split_and!; try done; intros; simplify_eq; done].
    destruct (bool_decide _) eqn:Hb.
    + split_and!; try done; intros; simplify_eq; done.
    + apply bool_decide_eq_false in Hb.
      split_and!; try done; intros; simplify_eq; auto.
      split_and!; try done. congruence.
  - destruct (flow_of st e !! Expense.current_approver_index e) as [s|];
      split_and!; try done; intros; simplify_eq; auto.
Qed.

(** *** Letter case in the converter *)

Lemma rate_lookup_same k :
  k ∈ table_currencies → rate_lookup k k = Some (dec 10 1).
Proof.
  unfold table_currencies. rewrite !elem_of_cons, elem_of_nil.
  intros [->|[->|[->|[]]]]; reflexivity.
Qed.

(** X19: letter case in [mock_currency_conversion]. Between two different
    strings the result depends only on their upper-case forms; two
    different strings with the same upper-case form in the table, such as
    "usd" and "USD", are not taken as the same currency: the amount is
    multiplied by 1.0 and rounded to two places. *)
Theorem conversion_and_letter_case (a b : string) (x : F) :
  (∀ a' b', upper a' = upper a → upper b' = upper b → a ≠ b → a' ≠ b' →
     mock_currency_conversion a' b' x = mock_currency_conversion a b x) ∧
  (a ≠ b → upper a = upper b → upper a ∈ table_currencies →
     mock_currency_conversion a b x = round2 (fmul x (float_lit (dec 10 1)))).
Proof.
  unfold mock_currency_conversion. split.
  - intros a' b' Ha Hb Hne Hne'. rewrite !decide_False by done. by rewrite Ha, Hb.
  - intros Hne Hup Hin. rewrite decide_False by done.
    rewrite <- Hup. by rewrite (rate_lookup_same _ Hin).
Qed.

End Sessions.

(** ** Templates and the flows of stored expenses *)

Section Templates.
Context {F : Type} `{!PyPrims F}.

Implicit Types (st : State F) (e : Expense.t F).

(** No handler writes to a list object or to the company store. *)
Lemma dispatch_keeps_templates st req :
  heap (dispatch st req).2 = heap st ∧ COMPANIES (dispatch st req).2 = COMPANIES st.
Proof.
  destruct (dispatch_effect st req)
    as [[-> _]|[(data & nid & admin & name & role & m & -> & Ha & Hst)|
        [(data & nid & user & company & amount & cur & cat & descr & dt & -> & Hus & Hc &
          Hst & _ & _)|
         [(id & jc & now & e & s & -> & _ & He & Hf & Hs & Hst)|
          (id & jc & now & e & s & -> & _ & He & Hf & Hs & Hst)]]]];
    [done|by rewrite Hst..].
Qed.

Lemma serve_keeps_templates st reqs :
  heap (serve st reqs).2 = heap st ∧ COMPANIES (serve st reqs).2 = COMPANIES st.
Proof.
  revert st. induction reqs as [|[caller req] rest IH]; intros st; simpl; [done|].
  destruct (dispatch_keeps_templates (acting_as caller st) req) as [Hh Hc].
  destruct (dispatch (acting_as caller st) req) as [code st1]. simpl in *.
  destruct (IH st1) as [Hh1 Hc1].
  destruct (serve st1 rest) as [codes st2]. simpl in *.
  split; congruence.
Qed.



Lemma serve_keeps_consistency st reqs :
  stores_consistent st → stores_consistent (serve st reqs).2.
Proof.
  revert st. induction reqs as [|[caller req] rest IH]; intros st Hst; simpl; [done|].
  assert (Hac : stores_consistent (acting_as caller st)) by exact Hst.
  destruct (dispatch_keeps_consistency _ req Hac) as [H1 _].
  destruct (dispatch (acting_as caller st) req) as [code st1]. simpl in *.
  specialize (IH st1 H1).
  destruct (serve st1 rest) as [codes st2]. simpl in *. done.
Qed.

(** Where the index of every pending expense points into its flow and a
    Manager step is a first step, the loop of [view_pending_expenses] keeps
    an expense exactly when it is pending, of the caller's company, and
    [check_can_approve] allows the caller. *)
Lemma pending_for_is_the_check st user_id u id e :
  pending_in_flow st → manager_step_first st →
  USERS st !! user_id = Some u → EXPENSES st !! id = Some e →
  (pending_for st user_id (Some (User.role u)) (User.company_id u) e = true ↔
   finalized e = false ∧ Expense.company_id e = User.company_id u ∧
   (check_can_approve st user_id e).1 = true).
Proof.
  intros Hp Hm Hu He. destruct (finalized e) eqn:Hf.
  - split.
    + unfold pending_for. rewrite Hf, orb_true_r. done.
    + intros (? & _). done.
  - assert (Hlt := Hp id e He Hf).
    rewrite (pending_for_agrees st user_id u e Hu Hlt); [tauto|].
    intros current_step Hs Hrole. unfold flow_of in Hs.
    destruct (heap st !! Expense.approval_flow e) as [flow|] eqn:Hfl; [|done].
    exact (Hm _ flow _ current_step Hfl Hs Hrole).
Qed.

(** C8: for a caller whose role is Manager, Admin or Finance, the pending
    list holds exactly the expenses that are not finalized, belong to the
    caller's company and pass [check_can_approve] for the caller, with the
    manager relationship asked for at index 0 only. It holds in every state
    a session reaches from stores that are consistent and in which a Manager
    step is a first step: the loop of the listing asks for the relationship
    at every Manager step, the check at index 0 only, and in such states the
    two tests meet at the same steps. *)
Theorem pending_list_is_the_authorized_expenses st0 reqs caller u :
  stores_consistent st0 → manager_step_first st0 →
  let st := acting_as caller (serve st0 reqs).2 in
  caller ≠ "" →
  USERS st !! caller = Some u →
  role_in (Some (User.role u)) approver_roles = true →
  stores_consistent st ∧ manager_step_first st ∧
  ∃ l, (view_pending_expenses st).1 = Ok 200 l ∧
    ∀ e, e ∈ l ↔
      (∃ id, EXPENSES st !! id = Some e) ∧
      finalized e = false ∧
      Expense.company_id e = User.company_id u ∧
      (check_can_approve st caller e).1 = true.
Proof.
  intros Hc0 Hm0 st Hid Hu Hrole.
  assert (Hc : stores_consistent st)
    by exact (serve_keeps_consistency st0 reqs Hc0).
  assert (Hm : manager_step_first st).
  { intros l flow i s Hl. apply (Hm0 l flow i s).
    destruct (serve_keeps_templates st0 reqs) as [<- _]. exact Hl. }
  split; [done|]. split; [done|].
  assert (Hview : view_pending_expenses st = view_pending_expenses_body st).
  { apply require_role_pass; [done|].
    unfold get_user_role. change (CURRENT_USER_ID st) with caller. by rewrite Hu. }
  assert (Hok : ∃ l, (view_pending_expenses st).1 = Ok 200 l).
  { rewrite Hview. unfold view_pending_expenses_body, get_current_user_id.
    change (CURRENT_USER_ID st) with caller. rewrite Hu. eauto. }
  destruct Hok as [l Hok]. exists l. split; [done|].
  destruct (view_pending_expenses_lists st 200 l Hok) as (u' & Hu' & Hl).
  change (CURRENT_USER_ID st) with caller in Hu', Hl.
  assert (u' = u) as -> by congruence.
  destruct Hc as (_ & _ & Hp).
  intros e. rewrite Hl. split.
  - intros [[id He] Hpf]. split; [eauto|].
    by apply (pending_for_is_the_check st caller u id e Hp Hm Hu He).
  - intros ([id He] & Hrest). split; [eauto|].
    by apply (pending_for_is_the_check st caller u id e Hp Hm Hu He).
Qed.

End Templates.

(** ** The further properties at the seeded service *)

(** A caller who is not in the user table asks to approve the scenario's
    expense. *)
Lemma unknown_caller_is_refused_at_ghost :
  dispatch (acting_as "ghost" submitted) (ApproveExpense "expense-1" None "t") =
    (403, acting_as "ghost" submitted).
Proof.
  apply (unknown_caller_is_refused (acting_as "ghost" submitted));
    [vm_compute; reflexivity | vm_compute; discriminate | discriminate].
Defined.

(** The assigned Manager asks to approve an expense that does not exist. *)
Lemma missing_expense_is_not_found_at_submitted :
  (approve_expense (acting_as "manager-1" submitted) "expense-9" None "t").1 =
    Error 404 (Some "Expense not found.").
Proof.
  destruct (missing_expense_is_not_found (acting_as "manager-1" submitted) "expense-9"
              None "t") as (_ & _ & _ & H404); [vm_compute; reflexivity|].
  destruct H404 as [Ha _]; [vm_compute; discriminate | vm_compute; reflexivity |].
  exact Ha.
Defined.

(** The submission of the scenario stores the expense [trip_expense]. *)
Lemma submit_expense_stores_pending_expense_at_scenario :
  (submit_expense (acting_as "employee-1" staffed) trip "expense-1").2 =
    set_EXPENSES (<["expense-1" := trip_expense]> (EXPENSES staffed))
      (acting_as "employee-1" staffed).
Proof.
  destruct (submit_expense_stores_pending_expense (acting_as "employee-1" staffed) trip
              "expense-1" 201
              (mkSubmitted "Expense submitted successfully." "expense-1" "Manager Approval"
                 (QArith_base.Qmake 108 1, "USD")))
    as (user & company & a & amount & cur & cat & descr & dt & first &
        Hu & _ & Hc & Ha & Hf & Hcur & Hcat & Hd & Hdt & _ & _ & _ & Hst);
    [vm_compute; reflexivity|].
  rewrite Hst.
  vm_compute in Hu, Hc, Ha, Hcur, Hcat, Hd, Hdt.
  injection Hu as <-. injection Hc as <-. injection Ha as <-.
  injection Hcur as <-. injection Hcat as <-. injection Hd as <-. injection Hdt as <-.
  vm_compute in Hf. injection Hf as <-. vm_compute. reflexivity.
Defined.

(** With the template emptied, the submission of the scenario raises
    after storing the expense. *)
Lemma submit_expense_empty_template_at_emptied :
  (submit_expense (acting_as "employee-1" emptied) trip "expense-1").1 =
    Raised "IndexError" ∧
  is_Some (EXPENSES (submit_expense (acting_as "employee-1" emptied) trip "expense-1").2
             !! "expense-1").
Proof.
  destruct (submit_expense_empty_template (acting_as "employee-1" emptied) trip "expense-1"
              (User.mk "employee-1" "company-1" "Tom Employee" "Employee" (Some "manager-1"))
              (Company.mk "company-1" "Acme Global Inc." "USD" DEFAULT_APPROVAL_FLOW)
              (JStr "100") (QArith_base.Qmake 100 1) "EUR" "Travel" "Trip" "2024-01-01")
    as [Hs _]; try (vm_compute; reflexivity); [vm_compute; discriminate|].
  rewrite Hs. split; [reflexivity|]. simpl. rewrite lookup_insert_eq. eauto.
Defined.

(** The assigned Manager's pending list holds the scenario's expense, and
    the Manager's approval of it is answered 200. *)
Lemma pending_list_is_actionable_at_submitted :
  ∃ d, (approve_expense (acting_as "manager-1" submitted) "expense-1" None "t").1 = Ok 200 d.
Proof.
  destruct (pending_list_is_actionable (acting_as "manager-1" submitted) 200
              [trip_expense] trip_expense) as (_ & _ & _ & Hact);
    [vm_compute; reflexivity | rewrite elem_of_cons; by left |].
  destruct (Hact "expense-1" None "t") as [Ha _]; [vm_compute; reflexivity|].
  exact Ha.
Defined.

(** The scenario's expense, which the check lets the assigned Manager
    approve, is on that Manager's pending list. *)
Lemma pending_list_is_complete_at_submitted :
  (view_pending_expenses (acting_as "manager-1" submitted)).1 = Ok 200 [trip_expense] ∧
  trip_expense ∈ [trip_expense].
Proof.
  assert (Hok : (view_pending_expenses (acting_as "manager-1" submitted)).1 =
                Ok 200 [trip_expense]) by (vm_compute; reflexivity).
  split; [exact Hok|].
  apply (pending_list_is_complete_on_manager_first_flows (acting_as "manager-1" submitted)
           200 [trip_expense]
           (User.mk "manager-1" "company-1" "Jane Manager" "Manager" (Some "admin-user-123"))
           "expense-1" trip_expense Hok);
    [ vm_compute; reflexivity | vm_compute; reflexivity | reflexivity
    | vm_compute; lia | intros s Hs _; reflexivity | vm_compute; reflexivity ].
Defined.

(** The scenario's expense is on the submitter's own list. *)
Lemma submitted_expense_is_listed_at_scenario :
  ∃ e l, EXPENSES submitted !! "expense-1" = Some e ∧
         (view_my_expenses submitted).1 = Ok 200 l ∧ e ∈ l.
Proof.
  destruct (submitted_expense_is_listed (acting_as "employee-1" staffed) trip "expense-1"
              201
              (mkSubmitted "Expense submitted successfully." "expense-1" "Manager Approval"
                 (QArith_base.Qmake 108 1, "USD")))
    as (e & He & (l & Hl & Hin) & _); [vm_compute; reflexivity|].
  exists e, l. split; [exact He|]. split; [exact Hl|exact Hin].
Defined.

(** With the template emptied, the submission of the scenario is answered
    500 for the second of the three reasons. *)
Lemma dispatch_raises_at_emptied :
  (∃ user,
     USERS (acting_as "employee-1" emptied) !!
       CURRENT_USER_ID (acting_as "employee-1" emptied) = Some user ∧
     COMPANIES (acting_as "employee-1" emptied) !! User.company_id user = None) ∨
  (∃ user company,
     USERS (acting_as "employee-1" emptied) !!
       CURRENT_USER_ID (acting_as "employee-1" emptied) = Some user ∧
     COMPANIES (acting_as "employee-1" emptied) !! User.company_id user = Some company ∧
     default [] (heap (acting_as "employee-1" emptied) !! Company.approval_config company)
       !! 0 = None ∧
     ∃ new_id,
       is_Some (EXPENSES (dispatch (acting_as "employee-1" emptied)
                            (SubmitExpense trip "expense-1")).2 !! new_id) ∧
       submits new_id (SubmitExpense trip "expense-1")) ∨
  (∃ id e,
     EXPENSES (acting_as "employee-1" emptied) !! id = Some e ∧ finalized e = false ∧
     length (flow_of (acting_as "employee-1" emptied) e) ≤ Expense.current_approver_index e ∧
     (check_can_approve (acting_as "employee-1" emptied)
        (CURRENT_USER_ID (acting_as "employee-1" emptied)) e).1 = true) ∨
  (∃ data new_id,
     SubmitExpense trip "expense-1" = SubmitExpense data new_id ∧
     conversion_raises (F := amount_t) data).
Proof.
  apply (dispatch_raises_only_on_broken_stores (acting_as "employee-1" emptied)
           (SubmitExpense trip "expense-1")).
  vm_compute. reflexivity.
Defined.

Lemma seeded_consistent : stores_consistent seeded.
Proof.
  split_and!.
  - intros k u Hk. unfold seeded in *. simpl in *.
    rewrite !lookup_insert in Hk.
    repeat case_decide; simplify_eq; simpl; rewrite lookup_insert_eq; eauto.
  - intros k c Hk. unfold seeded in *. simpl in *.
    rewrite lookup_insert in Hk. case_decide; [|by rewrite lookup_empty in Hk].
    simplify_eq. simpl. exists default_steps, (Step.mk "Manager" "Manager Approval").
    split; [apply lookup_singleton_eq|reflexivity].
  - intros k e Hk. unfold seeded in Hk. simpl in Hk. by rewrite lookup_empty in Hk.
Qed.


(** The expenses left by the full session have the shape of the theorem:
    the scenario's expense ends Approved with three history entries. *)
Lemma expense_shape_is_kept_at_full_session :
  ∃ e, EXPENSES (serve staffed full_session).2 !! "expense-1" = Some e ∧
       length (Expense.history e) = 3 ∧ Expense.status e = "Approved".
Proof.
  destruct (EXPENSES (serve staffed full_session).2 !! "expense-1") as [e|] eqn:He;
    [|vm_compute in He; discriminate He].
  exists e. split; [reflexivity|].
  destruct (expense_shape_is_kept staffed full_session) with (k := "expense-1") (e := e)
    as [Hlen _]; [|exact He|].
  { intros k e0 Hk. vm_compute in Hk. discriminate Hk. }
  vm_compute in He. injection He as <-. split; [exact Hlen|reflexivity].
Defined.

Lemma decisions_session_submits_nothing :
  ∀ caller req, (caller, req) ∈ decisions_session → ¬ submits "expense-1" req.
Proof.
  intros caller req Hin. unfold decisions_session in Hin.
  rewrite !elem_of_cons, elem_of_nil in Hin.
  destruct Hin as [H|[H|[H|[H|[H|[H|[H|[]]]]]]]]; injection H as _ ->; simpl; tauto.
Qed.

(** In the session of the scenario three decisions on the expense are
    answered 200, as many as its flow has steps. *)
Lemma decisions_are_bounded_at_scenario :
  decisions_made submitted "expense-1" decisions_session = 3 ∧
  steps_left submitted trip_expense = 3.
Proof.
  pose proof (decisions_are_bounded_by_steps_left submitted "expense-1" trip_expense
                decisions_session) as Hle.
  assert (Hs : steps_left submitted trip_expense = 3) by (vm_compute; reflexivity).
  rewrite Hs in Hle.
  assert (Hge : 3 ≤ decisions_made submitted "expense-1" decisions_session)
    by (vm_compute; lia).
  split; [|exact Hs].
  apply Nat.le_antisymm; [|exact Hge].
  apply Hle; [vm_compute; reflexivity | apply decisions_session_submits_nothing].
Defined.

(** The approved expense of the scenario comes out of the session as it
    went in. *)
Lemma finalized_expense_survives_at_after_admin :
  EXPENSES (serve after_admin decisions_session).2 !! "expense-1" =
    EXPENSES after_admin !! "expense-1".
Proof.
  destruct (EXPENSES after_admin !! "expense-1") as [e|] eqn:He;
    [|vm_compute in He; discriminate He].
  apply (finalized_expense_survives_every_session after_admin "expense-1" e
           decisions_session He);
    [|apply decisions_session_submits_nothing].
  vm_compute in He. injection He as <-. reflexivity.
Defined.

(** Served as the bootstrap leaves it, with the Employee as the caller,
    the service answers 403 to the approval of the expense just
    submitted. *)
Lemma employee_session_never_decides_at_seeded :
  (run seeded employee_session).1 !! 1 = Some 403 ∧
  CURRENT_USER_ID (run seeded employee_session).2 = "employee-1".
Proof.
  destruct (employee_session_never_decides seeded employee_session)
    as (_ & Hc & H403 & _); [vm_compute; discriminate | vm_compute; reflexivity |].
  split; [|exact Hc].
  apply (H403 1 (ApproveExpense "expense-1" None "2024-01-02T09:00:00"));
    reflexivity.
Defined.

(** The Admin approves the scenario's expense three times. *)
Lemma admin_completes_the_flow_at_submitted :
  ∃ e', EXPENSES (run (acting_as "admin-user-123" submitted)
                    ((λ a, ApproveExpense "expense-1" a.1 a.2) <$> three_approvals)).2
          !! "expense-1" = Some e' ∧
        Expense.status e' = "Approved" ∧
        Entry.step <$> Expense.history e' =
          ["Manager Approval"; "Finance Review"; "Director Sign-off"].
Proof.
  destruct (admin_completes_the_flow (acting_as "admin-user-123" submitted) "expense-1"
              trip_expense three_approvals)
    as (_ & e' & He' & Hs & _ & Hh);
    [ vm_compute; discriminate | vm_compute; reflexivity | vm_compute; reflexivity
    | reflexivity | vm_compute; reflexivity | vm_compute; lia |].
  exists e'. split; [exact He'|]. split; [exact Hs|].
  rewrite Hh. vm_compute. reflexivity.
Defined.

(** The Admin of the seeded service creates the Finance user. *)
Lemma create_user_outcome_at_seeded :
  (create_user (acting_as "admin-user-123" seeded)
     (mkUserBody (Some "Fay Finance") (Some "Finance") (Some None)) "finance-1").1 =
    Ok 201 ("User Fay Finance created.", "finance-1").
Proof.
  destruct (create_user_outcome (acting_as "admin-user-123" seeded)
              (mkUserBody (Some "Fay Finance") (Some "Finance") (Some None)) "finance-1")
    as (_ & Hok & _).
  apply (Hok (User.mk "admin-user-123" "company-1" "Admin User" "Admin" None)
           "Fay Finance" "Finance" None);
    try (vm_compute; reflexivity); [discriminate|].
  rewrite !elem_of_cons. auto.
Defined.

(** "usd" to "USD" rounds 1.234 to 1.23. *)
Lemma conversion_and_letter_case_at_usd :
  mock_currency_conversion "usd" "USD" (QArith_base.Qmake 1234 1000) =
    QArith_base.Qmake 123 100.
Proof.
  destruct (conversion_and_letter_case "usd" "USD" (QArith_base.Qmake 1234 1000))
    as [_ Hsame].
  rewrite Hsame; [vm_compute; reflexivity | discriminate | vm_compute; reflexivity |].
  unfold table_currencies. rewrite !elem_of_cons. vm_compute. auto.
Defined.

(** *** Flows and pending lists along sessions *)

Lemma seeded_manager_step_first : manager_step_first seeded.
Proof.
  intros l flow i s Hl Hi Hrole. unfold seeded in Hl. simpl in Hl.
  apply lookup_singleton_Some in Hl as [_ <-].
  destruct i as [|[|[|i]]]; [done|simpl in Hi; injection Hi as <-; done..|done].
Qed.


(** After the session that staffs the seeded service and submits the trip,
    the pending list of the Employee's Manager holds the trip, and the
    pending list of the other Manager, whom the check refuses, does not. *)
Lemma pending_list_is_the_authorized_expenses_at_seeded :
  (∃ l, (view_pending_expenses
           (acting_as "manager-1" (serve seeded staffing_session).2)).1 = Ok 200 l ∧
        trip_expense ∈ l) ∧
  (∃ l, (view_pending_expenses
           (acting_as "manager-2" (serve seeded staffing_session).2)).1 = Ok 200 l ∧
        trip_expense ∉ l).
Proof.
  split.
  - destruct (pending_list_is_the_authorized_expenses seeded staffing_session "manager-1"
                (User.mk "manager-1" "company-1" "Jane Manager" "Manager"
                   (Some "admin-user-123"))
                seeded_consistent seeded_manager_step_first)
      as (_ & _ & l & Hok & Hl);
      [discriminate | vm_compute; reflexivity | vm_compute; reflexivity |].
    exists l. split; [exact Hok|]. apply Hl.
    split; [exists "expense-1"; vm_compute; reflexivity|].
    split_and!; vm_compute; reflexivity.
  - destruct (pending_list_is_the_authorized_expenses seeded staffing_session "manager-2"
                (User.mk "manager-2" "company-1" "Max Manager" "Manager"
                   (Some "admin-user-123"))
                seeded_consistent seeded_manager_step_first)
      as (_ & _ & l & Hok & Hl);
      [discriminate | vm_compute; reflexivity | vm_compute; reflexivity |].
    exists l. split; [exact Hok|]. intros Hin.
    apply Hl in Hin as (_ & _ & _ & Hcheck).
    vm_compute in Hcheck. discriminate Hcheck.
Defined.
